(** * ChordCloud: the playlist-assembly pipeline

    A shallow embedding of the three prototype scripts of the repository
    ([app.py], [app3.py], [main2.py]) and the properties of their
    playlist-assembly pipeline.

    The scripts are glue around hosted services: a keyword web search, the
    Spotify catalog and an LLM agent.  Every outbound call is an element of
    [Call]; a [World] answers calls as a function of the calls made so far,
    so that a catalog may change between two requests.  A Python function
    becomes a computation in [Py], which threads the trace of calls and
    propagates exceptions. *)

From Stdlib Require Import String Ascii List ZArith Bool Lia.
From Stdlib Require Import DecimalString.
Import ListNotations.
Open Scope string_scope.
Open Scope list_scope.
Open Scope Z_scope.

(** ** Values exchanged with the services *)

(** An entry of [track['artists']]. *)
Record Artist := { artist_name : string }.

(** A catalog track object: the keys the scripts read. *)
Record Track := {
  track_id : string;
  track_uri : string;
  track_name : string;
  track_artists : list Artist
}.

(** [search_results['tracks']['items']]. *)
Record SearchResults := { items : list Track }.

(** [recommendations['tracks']]. *)
Record Recommendations := { rec_tracks : list Track }.

(** The object returned by [user_playlist_create]; the scripts read ['id']. *)
Record PlaylistObj := { id : string }.

(** The authentication managers of [spotipy.oauth2]. *)
Inductive AuthManager :=
| SpotifyOAuth (client_id client_secret redirect_uri : option string) (scope : string)
| SpotifyClientCredentials (client_id client_secret : option string).

(** The keyword arguments a script passes to [spotipy.Spotify]; an argument
    that is left out is [None]. *)
Record Spotify := {
  auth_manager : option AuthManager;
  client_credentials_manager : option AuthManager;
  requests_timeout : option Z
}.

(** Python exceptions, by class. *)
Inductive ExnClass :=
| ConnectionError | Timeout | HTTPError | JSONDecodeError | RequestException
| SpotifyException | NameError | IndexError | AttributeError | ValueError
| RuntimeError | TypeError | SpotifyOauthError.

Record Exn := { exn_class : ExnClass; exn_msg : string }.

(** [isinstance(e, requests.exceptions.RequestException)]. *)
Definition is_RequestException (e : Exn) : bool :=
  match exn_class e with
  | ConnectionError | Timeout | HTTPError | JSONDecodeError | RequestException => true
  | _ => false
  end.

(** One object of the [organic] array of the search document. *)
Record OrganicResult := { title : option string; link : option string }.

(** The JSON document of the keyword search: the [organic] key may be absent. *)
Record SerperDoc := { organic : option (list OrganicResult) }.

(** A [requests.Response]: its status and what [response.json()] gives. *)
Record Response := { status_code : Z; json : Exn + SerperDoc }.

(** The object returned by [agent.chat]. *)
Record AgentChatResponse := { response : string }.

(** A document loaded by [SimpleDirectoryReader] and the index built on them. *)
Record Document := { doc_text : string }.
Record VectorStoreIndex := { index_docs : list Document }.

(** The objects of lines 82-88 of [app3.py]: the language model, the
    embedding model and the query engine over the index. *)
Record LLM := { llm_model : string }.
Record Embedding := { embedding_model : string }.
Record QueryEngine := { engine_top_k : Z }.

(** ** Outbound calls *)

Inductive Call : Type -> Type :=
| requests_get (url : string) (params headers : list (string * string))
    (timeout : option Z) : Call Response
| sp_search (sp : Spotify) (q type : string) (limit : Z) : Call SearchResults
| sp_recommendations (sp : Spotify) (seed_tracks : list string) (limit : Z)
    : Call Recommendations
| sp_user_playlist_create (sp : Spotify) (user name : string) (public : bool)
    : Call PlaylistObj
| sp_playlist_add_items (sp : Spotify) (playlist_id : string)
    (items : list string) : Call unit
| path_exists (path : string) : Call bool
| load_data (input_dir : string) : Call (list Document)
| from_documents (documents : list Document) : Call VectorStoreIndex
| load_index_from_storage (persist_dir : string) : Call VectorStoreIndex
| OpenAI (model : string) (api_key : option string) : Call LLM
| OpenAIEmbeddings (model : string) (openai_api_key : option string) : Call Embedding
| as_query_engine (index : VectorStoreIndex) (llm : option LLM)
    (embed_model : option Embedding) (similarity_top_k : Z) : Call QueryEngine
| agent_chat (message : string) : Call AgentChatResponse
| st_error (body : string) : Call unit.

(** A call together with its answer: a value or a raised exception. *)
Inductive Event :=
| Ev {T : Type} (c : Call T) (r : Exn + T).

(** The outside of the program: the process environment and the answer of
    every service, which may depend on the calls made before. *)
Record World := {
  environ : string -> option string;
  respond : forall T, Call T -> list Event -> Exn + T
}.

(** ** The monad of Python computations *)

Definition Py (A : Type) : Type := list Event -> (Exn + A) * list Event.

Definition ret {A} (a : A) : Py A := fun h => (inr a, h).

Definition raise {A} (e : Exn) : Py A := fun h => (inl e, h).

Definition bind {A B} (m : Py A) (f : A -> Py B) : Py B :=
  fun h =>
    match m h with
    | (inr a, h') => f a h'
    | (inl e, h') => (inl e, h')
    end.

Declare Scope py_scope.
Delimit Scope py_scope with py.
Notation "x <- m ;; k" := (bind m (fun x => k))
  (at level 100, m at next level, right associativity) : py_scope.
Notation "m ;;; k" := (bind m (fun _ => k))
  (at level 100, right associativity) : py_scope.
Open Scope py_scope.

(** [try: body except <classes> as e: handler]. *)
Definition try_except {A} (body : Py A) (catches : Exn -> bool)
  (handler : Exn -> Py A) : Py A :=
  fun h =>
    match body h with
    | (inl e, h') => if catches e then handler e h' else (inl e, h')
    | ok => ok
    end.

(** [for x in l: acc = body x acc], the loop state being [acc]. *)
Fixpoint for_each {A S} (l : list A) (body : A -> S -> Py S) (acc : S) : Py S :=
  match l with
  | [] => ret acc
  | x :: l' => acc' <- body x acc ;; for_each l' body acc'
  end.

(** ** Python string and list primitives *)

(** [s.split(sep)] for a one-character separator. *)
Fixpoint split (sep : ascii) (s : string) : list string :=
  match s with
  | EmptyString => [EmptyString]
  | String c s' =>
      if Ascii.eqb c sep then EmptyString :: split sep s'
      else match split sep s' with
           | [] => [String c EmptyString]
           | w :: ws => String c w :: ws
           end
  end.

(** [sep.join(l)]. *)
Definition join (sep : string) (l : list string) : string := String.concat sep l.

Definition newline : ascii := "010"%char.

(** [l[0]] on a list. *)
Definition getitem0 {A} (l : list A) : Py A :=
  match l with
  | [] => raise {| exn_class := IndexError; exn_msg := "list index out of range" |}
  | x :: _ => ret x
  end.

(** The comprehension [[f(x) for x in l]] when [f] may raise. *)
Fixpoint comprehension {A B} (f : A -> Py B) (l : list A) : Py (list B) :=
  match l with
  | [] => ret []
  | x :: l' => y <- f x ;; ys <- comprehension f l' ;; ret (y :: ys)
  end.

(** [f"{track['name']} by {track['artists'][0]['name']}"]. *)
Definition format_track (track : Track) : Py string :=
  artist <- getitem0 (track_artists track) ;;
  ret (track_name track ++ " by " ++ artist_name artist)%string.

(** An outbound call: the world answers, the trace grows by one event. *)
Definition call (w : World) {T} (c : Call T) : Py T :=
  fun h => let r := respond w T c h in (r, h ++ [Ev c r]).

(** [st.error(body)]: a message is rendered; nothing is returned. *)
Definition st_error_ (body : string) : Py unit :=
  fun h => (inr tt, h ++ [Ev (st_error body) (inr tt)]).

(** [os.getenv(key)]. *)
Definition getenv (w : World) (key : string) : option string := environ w key.

(** [str(x)] for a value that may be [None], as an f-string formats it. *)
Definition str_of_option (o : option string) : string :=
  match o with
  | Some s => s
  | None => "None"
  end.

(** The tools handed to the agent. *)
Inductive Tool :=
| QueryEngineTool (name description : string)
| FunctionTool (fn : string -> Py string) (name description : string).

(** What [self.agent] may hold.  The agent that [ReActAgent.from_tools]
    returns keeps the tools it was given to itself: it has no attribute
    [tools].  Any other object with a [chat] method and a [tools] attribute
    is a stand-in for it. *)
Inductive Agent :=
| ReActAgent (registered : list Tool)
| stand_in (tools : list Tool).

(** [agent.tools]. *)
Definition agent_tools (a : Agent) : Py (list Tool) :=
  match a with
  | ReActAgent _ =>
      raise {| exn_class := AttributeError;
               exn_msg := "'ReActAgent' object has no attribute 'tools'" |}
  | stand_in tools => ret tools
  end.

(** [QueryEngineTool(query_engine=..., name=..., description=...)]: the
    constructor takes the name and the description inside [metadata] and
    knows no keyword [name]. *)
Definition QueryEngineTool_named (query_engine : QueryEngine)
  (name description : string) : Py Tool :=
  raise {| exn_class := TypeError;
           exn_msg := "QueryEngineTool.__init__() got an unexpected keyword argument 'name'" |}.

(** [QueryEngineTool(query_engine=..., metadata=ToolMetadata(name=...,
    description=...))]. *)
Definition QueryEngineTool_with_metadata (query_engine : QueryEngine)
  (name description : string) : Py Tool :=
  ret (QueryEngineTool name description).

(** [SpotifyOAuth(client_id=..., client_secret=..., redirect_uri=...,
    scope=...)]: the manager is refused when a credential is [None]; the
    three are looked at in this order. *)
Definition SpotifyOAuth_init (client_id client_secret redirect_uri : option string)
  (scope : string) : Py AuthManager :=
  match client_id, client_secret, redirect_uri with
  | None, _, _ =>
      raise {| exn_class := SpotifyOauthError;
               exn_msg := "No client_id. Pass it or set a SPOTIPY_CLIENT_ID environment variable." |}
  | Some _, None, _ =>
      raise {| exn_class := SpotifyOauthError;
               exn_msg := "No client_secret. Pass it or set a SPOTIPY_CLIENT_SECRET environment variable." |}
  | Some _, Some _, None =>
      raise {| exn_class := SpotifyOauthError;
               exn_msg := "No redirect_uri. Pass it or set a SPOTIPY_REDIRECT_URI environment variable." |}
  | Some _, Some _, Some _ =>
      ret (SpotifyOAuth client_id client_secret redirect_uri scope)
  end.

(** [tools[i]]. *)
Definition tools_getitem (l : list Tool) (i : nat) : Py Tool :=
  match nth_error l i with
  | Some t => ret t
  | None => raise {| exn_class := IndexError; exn_msg := "list index out of range" |}
  end.

(** [tool.fn]: only a function tool carries one. *)
Definition tool_fn (t : Tool) : Py (string -> Py string) :=
  match t with
  | FunctionTool fn _ _ => ret fn
  | QueryEngineTool _ _ =>
      raise {| exn_class := AttributeError;
               exn_msg := "'QueryEngineTool' object has no attribute 'fn'" |}
  end.

(** An instance of the class [PlaylistGeneratorWithLlamaIndex]. *)
Record PlaylistGeneratorWithLlamaIndex := {
  data_path : string;
  self_sp : Spotify;
  index : VectorStoreIndex;
  agent : Agent
}.

(** ** app3.py *)

Module app3.
Section WithWorld.

Variable w : World.

(** Lines 28-33: the client of [create_spotify_playlist], once
    [SpotifyOAuth] has accepted the three credentials ([new_client] below has
    the construction with its refusal).  [requests_timeout] is the keyword
    the script passes, here none: the calls then go out with the default of
    the library ([spotipy_timeout]). *)
Definition oauth_client : Spotify :=
  {| auth_manager :=
       Some (SpotifyOAuth (getenv w "SPOTIPY_CLIENT_ID")
                          (getenv w "SPOTIPY_CLIENT_SECRET")
                          (getenv w "SPOTIPY_REDIRECT_URI")
                          "playlist-modify-private");
     client_credentials_manager := None;
     requests_timeout := None |}.

(** Lines 42-45: the body of the loop over [song_list]; [track_uris] is the
    list the loop appends to. *)
Definition search_song (sp : Spotify) (song : string) (track_uris : list string)
  : Py (list string) :=
  search_results <- call w (sp_search sp song "track" 1) ;;
  match items search_results with
  | track :: _ => ret (track_uris ++ [track_uri track])
  | [] => ret track_uris
  end.

(** Line 52: the address inside the returned text, and the text. *)
Definition playlist_link (playlist_id : string) : string :=
  ("https://open.spotify.com/playlist/" ++ playlist_id)%string.

Definition confirmation (playlist_id : string) : string :=
  ("Your playlist has been created! [Open Playlist]("
     ++ playlist_link playlist_id ++ ")")%string.

(** Lines 35-52: the calls of [create_spotify_playlist], through the client
    of lines 28-33 once it is built; [create_spotify_playlist_entry] below is
    the function from its first line. *)
Definition create_spotify_playlist (user_id playlist_name : string)
  (song_list : list string) : Py string :=
  let sp := oauth_client in
  playlist <- call w (sp_user_playlist_create sp user_id playlist_name false) ;;
  let playlist_id := id playlist in
  track_uris <- for_each song_list (search_song sp) [] ;;
  (match track_uris with
   | [] => ret tt
   | _ :: _ => call w (sp_playlist_add_items sp playlist_id track_uris)
   end) ;;;
  ret (confirmation playlist_id).

(** Lines 28-33 with the construction: [spotipy.Spotify(auth_manager=
    SpotifyOAuth(...))]. *)
Definition new_client : Py Spotify :=
  auth <- SpotifyOAuth_init (getenv w "SPOTIPY_CLIENT_ID")
            (getenv w "SPOTIPY_CLIENT_SECRET") (getenv w "SPOTIPY_REDIRECT_URI")
            "playlist-modify-private" ;;
  ret {| auth_manager := Some auth;
         client_credentials_manager := None;
         requests_timeout := None |}.

(** Lines 18-52 from the first line on: the construction of the client,
    which may refuse, then the calls of [create_spotify_playlist]. *)
Definition create_spotify_playlist_entry (user_id playlist_name : string)
  (song_list : list string) : Py string :=
  new_client ;;; create_spotify_playlist user_id playlist_name song_list.

Definition create_index (data_path : string) : Py VectorStoreIndex :=
  documents <- call w (load_data data_path) ;;
  match documents with
  | [] => raise {| exn_class := ValueError;
                   exn_msg := "No documents found in the specified path." |}
  | _ :: _ => call w (from_documents documents)
  end.

(** Lines 98-107: the function registered as the second tool; [sp] is
    [self.sp]. *)
Definition song_recommendation_function (sp : Spotify) (query : string) : Py string :=
  search_results <- call w (sp_search sp query "track" 5) ;;
  let tracks := items search_results in
  match tracks with
  | [] => ret "No song recommendations found."
  | _ :: _ =>
      recommendations <- comprehension format_track tracks ;;
      ret (join (String newline EmptyString) recommendations)
  end.

(** Lines 79-120.  The model, the embedding and the query engine are built
    by the libraries; the search tool is then constructed with the keywords
    [name] and [description]. *)
Definition create_agent (sp : Spotify) (index : VectorStoreIndex) : Py Agent :=
  llm <- call w (OpenAI "text-davinci-003" (getenv w "OPENAI_API_KEY")) ;;
  embed_model <-
    call w (OpenAIEmbeddings "text-davinci-003" (getenv w "OPENAI_API_KEY")) ;;
  query_engine <- call w (as_query_engine index (Some llm) (Some embed_model) 3) ;;
  search_tool <-
    QueryEngineTool_named query_engine "document_search"
      "Search through a document corpus to refine song recommendations" ;;
  let song_recommendation_tool :=
    FunctionTool (song_recommendation_function sp) "song_recommendations"
      "Fetches song recommendations from Spotify based on the filtered query" in
  ret (ReActAgent [search_tool; song_recommendation_tool]).

(** Lines 56-70, from line 67 on: the client of lines 59-64 is
    [oauth_client], the credentials having been accepted. *)
Definition __init__ (data_path : string) : Py PlaylistGeneratorWithLlamaIndex :=
  let sp := oauth_client in
  index <- create_index data_path ;;
  agent <- create_agent sp index ;;
  ret {| data_path := data_path; self_sp := sp; index := index; agent := agent |}.

Definition generate_playlist (self : PlaylistGeneratorWithLlamaIndex)
  (user_query user_id : string) : Py string :=
  response_ <- call w (agent_chat user_query) ;;
  let refined_query := response response_ in
  tools <- agent_tools (agent self) ;;
  tool <- tools_getitem tools 1 ;;
  fn <- tool_fn tool ;;
  playlist_songs <- fn refined_query ;;
  let song_list := split newline playlist_songs in
  playlist_url <- create_spotify_playlist_entry user_id "Generated Playlist" song_list ;;
  ret playlist_url.

End WithWorld.
End app3.

(** ** app.py *)

(** What [create_playlist] returns: the pair of line 52 or the list of
    line 54. *)
Inductive CreatePlaylistValue :=
| PyTuple (message : string) (songs : list string)
| PyList (songs : list string).

(** [bool(v)], the test [if relevant_songs:] of [main]. *)
Definition truthy (v : CreatePlaylistValue) : bool :=
  match v with
  | PyTuple _ _ => true
  | PyList [] => false
  | PyList (_ :: _) => true
  end.

(** [len(v)]. *)
Definition py_len (v : CreatePlaylistValue) : nat :=
  match v with
  | PyTuple _ _ => 2%nat
  | PyList l => length l
  end.

(** [v[0]], the seed [relevant_songs[0]] of [main]. *)
Definition value_getitem0 (v : CreatePlaylistValue) : Py string :=
  match v with
  | PyTuple message _ => ret message
  | PyList l => getitem0 l
  end.

(** [response.raise_for_status()]: a 4xx or 5xx status raises [HTTPError]. *)
Definition raise_for_status (r : Response) : Py unit :=
  if (400 <=? status_code r) && (status_code r <? 600)
  then raise {| exn_class := HTTPError; exn_msg := "HTTP error status" |}
  else ret tt.

(** [response.json()]. *)
Definition response_json (r : Response) : Py SerperDoc :=
  match json r with
  | inl e => raise e
  | inr d => ret d
  end.

Module app.
Section WithWorld.

Variable w : World.

Definition serperdev_api_key : option string := getenv w "SERPERDEV_API_KEY".
Definition spotipy_client_id : option string := getenv w "SPOTIPY_CLIENT_ID".
Definition spotipy_client_secret : option string := getenv w "SPOTIPY_CLIENT_SECRET".

(** Lines 20-25: the module-level client. *)
Definition spotify : Spotify :=
  {| auth_manager := None;
     client_credentials_manager :=
       Some (SpotifyClientCredentials spotipy_client_id spotipy_client_secret);
     requests_timeout := None |}.

(** Line 35: the address of the request (the key literal of the source is
    left out of the text). *)
Definition serper_url : string := "https://google.serper.dev/search?q=&apiKey=".

(** Lines 29-32: the [headers] of the request. *)
Definition request_headers : list (string * string) :=
  [("Authorization", ("Bearer " ++ str_of_option serperdev_api_key)%string);
   ("Content-Type", "application/json")].

(** Lines 34-39: the request [requests.get(..., params={'q': query},
    headers=headers, timeout=10)]. *)
Definition search_request (query : string) : Call Response :=
  requests_get serper_url [("q", query)] request_headers (Some 10).

Definition fetch_playlist_data (query : string) : Py SerperDoc :=
  try_except
    (response_ <- call w (search_request query) ;;
     raise_for_status response_ ;;;
     response_json response_)
    is_RequestException
    (fun e =>
       st_error_ ("Error fetching data from Serper: " ++ exn_msg e)%string ;;;
       ret {| organic := Some [] |}).

(** [search_results.get('organic', [])]. *)
Definition get_organic (d : SerperDoc) : list OrganicResult :=
  match organic d with
  | Some l => l
  | None => []
  end.

(** [[result['title'] for result in ... if 'title' in result]]. *)
Fixpoint titles (results : list OrganicResult) : list string :=
  match results with
  | [] => []
  | result :: rest =>
      match title result with
      | Some t => t :: titles rest
      | None => titles rest
      end
  end.

Definition create_playlist (query : string) : Py CreatePlaylistValue :=
  search_results <- fetch_playlist_data query ;;
  let relevant_songs := titles (get_organic search_results) in
  match relevant_songs with
  | [] => ret (PyTuple "No songs found." [])
  | _ :: _ => ret (PyList relevant_songs)
  end.

Definition recommend_similar_songs (song_title : string) (num_recommendations : Z)
  : Py (list string) :=
  try_except
    (search_results <- call w (sp_search spotify song_title "track" 1) ;;
     let tracks := items search_results in
     match tracks with
     | [] => ret ["No similar songs found."]
     | track :: _ =>
         let track_id := track_id track in
         recommendations <-
           call w (sp_recommendations spotify [track_id] num_recommendations) ;;
         similar_songs <- comprehension format_track (rec_tracks recommendations) ;;
         ret similar_songs
     end)
    (fun _ => true)
    (fun e =>
       st_error_ ("Error getting recommendations: " ++ exn_msg e)%string ;;;
       ret ["Error fetching recommendations."]).

End WithWorld.
End app.

(** ** main2.py *)

Module main2.

(** The names bound at module level: the imports of lines 1-11 and the two
    definitions of the file. *)
Definition module_globals : list string :=
  ["os"; "spotipy"; "SpotifyOAuth"; "load_dotenv"; "List";
   "SimpleDirectoryReader"; "VectorStoreIndex"; "ToolMetadata"; "Groq";
   "JinaEmbedding"; "ReActAgent"; "QueryEngineTool"; "FunctionTool";
   "ChatMemoryBuffer"; "create_spotify_playlist";
   "PlaylistGeneratorWithLlamaIndex"].

(** The built-in names the file refers to. *)
Definition builtins : list string := ["ValueError"; "print"; "str"].

(** Reading a global name: the module namespace, then the built-ins, and
    [NameError] when neither binds it. *)
Definition load_global (name : string) : Py unit :=
  if existsb (String.eqb name) (module_globals ++ builtins)
  then ret tt
  else raise {| exn_class := NameError;
                exn_msg := ("name '" ++ name ++ "' is not defined")%string |}.

Section WithWorld.

Variable w : World.

(** Lines 17-52: the same text as in [app3.py]; every name it reads is bound. *)
Definition create_spotify_playlist (user_id playlist_name : string)
  (song_list : list string) : Py string :=
  load_global "spotipy" ;;; load_global "SpotifyOAuth" ;;; load_global "os" ;;;
  app3.create_spotify_playlist_entry w user_id playlist_name song_list.

Definition load_index (index_path : string) : Py VectorStoreIndex :=
  load_global "StorageContext" ;;;
  load_global "load_index_from_storage" ;;;
  call w (load_index_from_storage index_path).

Definition create_index (data_path : string) : Py VectorStoreIndex :=
  load_global "SimpleDirectoryReader" ;;;
  documents <- call w (load_data data_path) ;;
  match documents with
  | [] => load_global "ValueError" ;;;
          raise {| exn_class := ValueError;
                   exn_msg := "No documents found in the specified path." |}
  | _ :: _ => load_global "VectorStoreIndex" ;;; call w (from_documents documents)
  end.

Definition load_or_create_index (data_path index_path : string) : Py VectorStoreIndex :=
  load_global "os" ;;;
  found <- call w (path_exists index_path) ;;
  if found then load_index index_path else create_index data_path.

Definition song_recommendation_function (sp : Spotify) (query : string) : Py string :=
  app3.song_recommendation_function w sp query.

(** Lines 89-125: the search tool is constructed with [metadata=]. *)
Definition create_agent (sp : Spotify) (index : VectorStoreIndex) : Py Agent :=
  query_engine <- call w (as_query_engine index None None 3) ;;
  load_global "QueryEngineTool" ;;; load_global "ToolMetadata" ;;;
  search_tool <-
    QueryEngineTool_with_metadata query_engine "document_search"
      "Search through a document corpus to refine song recommendations" ;;
  load_global "FunctionTool" ;;;
  let song_recommendation_tool :=
    FunctionTool (song_recommendation_function sp) "song_recommendations"
      "Fetches song recommendations from Spotify based on the filtered query" in
  load_global "ReActAgent" ;;; load_global "ChatMemoryBuffer" ;;;
  ret (ReActAgent [search_tool; song_recommendation_tool]).

(** Lines 55-68.  The call [spotipy.Spotify(auth_manager=
    SpotifyClientCredentials(...))] reads [spotipy], then
    [SpotifyClientCredentials], then evaluates the arguments. *)
Definition __init__ (data_path index_path : string)
  : Py PlaylistGeneratorWithLlamaIndex :=
  load_global "spotipy" ;;;
  load_global "SpotifyClientCredentials" ;;;
  load_global "os" ;;;
  let sp :=
    {| auth_manager :=
         Some (SpotifyClientCredentials (getenv w "SPOTIPY_CLIENT_ID")
                                        (getenv w "SPOTIPY_CLIENT_SECRET"));
       client_credentials_manager := None;
       requests_timeout := None |} in
  index <- load_or_create_index data_path index_path ;;
  agent <- create_agent sp index ;;
  ret {| data_path := data_path; self_sp := sp; index := index; agent := agent |}.

Definition generate_playlist (self : PlaylistGeneratorWithLlamaIndex)
  (user_query user_id : string) : Py string :=
  response_ <- call w (agent_chat user_query) ;;
  let refined_query := response response_ in
  tools <- agent_tools (agent self) ;;
  tool <- tools_getitem tools 1 ;;
  fn <- tool_fn tool ;;
  playlist_songs <- fn refined_query ;;
  let song_list := split newline playlist_songs in
  load_global "create_spotify_playlist" ;;;
  playlist_url <- create_spotify_playlist user_id "Generated Playlist" song_list ;;
  ret playlist_url.

(** Lines 147-161: the script body; [index_path] takes its default. *)
Definition main : Py string :=
  let data_path := "./your_music_data" in
  load_global "PlaylistGeneratorWithLlamaIndex" ;;;
  playlist_generator <- __init__ data_path "index" ;;
  let user_query := "Create a playlist for a relaxing afternoon" in
  let user_id := "your_spotify_user_id" in
  playlist_url <- generate_playlist playlist_generator user_query user_id ;;
  ret playlist_url.

End WithWorld.
End main2.

(** ** Reading a run *)

(** The result of a computation started after the calls [h], and the calls
    it adds to them. *)
Definition outcome {A} (m : Py A) (h : list Event) : Exn + A := fst (m h).

Definition events {A} (m : Py A) (h : list Event) : list Event :=
  skipn (length h) (snd (m h)).

(** The call returned; it did not raise. *)
Definition returned (e : Event) : bool :=
  match e with
  | Ev _ (inr _) => true
  | Ev _ (inl _) => false
  end.

Definition is_search (e : Event) : bool :=
  match e with
  | Ev (sp_search _ _ _ _) _ => true
  | _ => false
  end.

Definition is_playlist_create (e : Event) : bool :=
  match e with
  | Ev (sp_user_playlist_create _ _ _ _) _ => true
  | _ => false
  end.

Definition is_add_items (e : Event) : bool :=
  match e with
  | Ev (sp_playlist_add_items _ _ _) _ => true
  | _ => false
  end.

(** The arguments of a catalog search: query, type and limit. *)
Definition search_args (e : Event) : option (string * string * Z) :=
  match e with
  | Ev (sp_search _ q type limit) _ => Some (q, type, limit)
  | _ => None
  end.

(** The top hit of a catalog search that came back with a result list. *)
Definition top_hit (e : Event) : option Track :=
  match e with
  | Ev c r =>
      match c in Call T return (Exn + T) -> option Track with
      | sp_search _ _ _ _ =>
          fun r => match r with
                   | inr res => hd_error (items res)
                   | inl _ => None
                   end
      | _ => fun _ => None
      end r
  end.

(** A searched candidate resolved: its search has a top hit. *)
Definition resolved (e : Event) : bool :=
  match top_hit e with
  | Some _ => true
  | None => false
  end.

(** The identifiers of the resolved candidates, in the order of the trace. *)
Fixpoint resolved_uris (tr : list Event) : list string :=
  match tr with
  | [] => []
  | e :: tr' =>
      match top_hit e with
      | Some t => track_uri t :: resolved_uris tr'
      | None => resolved_uris tr'
      end
  end.

(** The identifiers of the playlists the trace creates. *)
Fixpoint created_ids (tr : list Event) : list string :=
  match tr with
  | [] => []
  | Ev c r :: tr' =>
      match c in Call T return (Exn + T) -> list string with
      | sp_user_playlist_create _ _ _ _ =>
          fun r => match r with
                   | inr p => id p :: created_ids tr'
                   | inl _ => created_ids tr'
                   end
      | _ => fun _ => created_ids tr'
      end r
  end.

(** The track identifiers of a playlist after the trace: what the append
    calls that returned put into it, in order. *)
Fixpoint playlist_tracks (pid : string) (tr : list Event) : list string :=
  match tr with
  | [] => []
  | Ev (sp_playlist_add_items _ pid' uris) (inr _) :: tr' =>
      if String.eqb pid pid' then uris ++ playlist_tracks pid tr'
      else playlist_tracks pid tr'
  | _ :: tr' => playlist_tracks pid tr'
  end.

(** The client a catalog call goes through. *)
Definition event_client (e : Event) : option Spotify :=
  match e with
  | Ev (sp_search sp _ _ _) _ => Some sp
  | Ev (sp_recommendations sp _ _) _ => Some sp
  | Ev (sp_user_playlist_create sp _ _ _) _ => Some sp
  | Ev (sp_playlist_add_items sp _ _) _ => Some sp
  | _ => None
  end.




(** The client authenticates a user with the given scope. *)
Definition user_delegated (scope : string) (sp : Spotify) : bool :=
  match auth_manager sp, client_credentials_manager sp with
  | Some (SpotifyOAuth _ _ _ scope'), None => String.eqb scope scope'
  | _, _ => false
  end.

(** The client carries application credentials only. *)
Definition app_only (sp : Spotify) : bool :=
  match auth_manager sp, client_credentials_manager sp with
  | Some (SpotifyClientCredentials _ _), _ => true
  | _, Some (SpotifyClientCredentials _ _) => true
  | _, _ => false
  end.

(** What a playlist mutation of the materializer has to look like: a
    creation is private, for [user] and [name]; creation and append go
    through a user-delegated client with the private-playlist scope. *)
Definition mutation_ok (user name : string) (e : Event) : bool :=
  match e with
  | Ev (sp_user_playlist_create sp user' name' public) _ =>
      String.eqb user user' && String.eqb name name' && negb public
      && user_delegated "playlist-modify-private" sp && negb (app_only sp)
  | Ev (sp_playlist_add_items sp _ _) _ =>
      user_delegated "playlist-modify-private" sp && negb (app_only sp)
  | _ => true
  end.

(** ** Reading the confirmation back

    The scripts only print the confirmation; the two functions below are
    the reader's side of it: the address between the parentheses of the
    Markdown link, and the identifier after the playlist path. *)

Fixpoint strip_prefix (p s : string) : option string :=
  match p, s with
  | EmptyString, _ => Some s
  | String a p', String b s' => if Ascii.eqb a b then strip_prefix p' s' else None
  | String _ _, EmptyString => None
  end.

(** [s] without its last character, which has to be [c]. *)
Fixpoint strip_last (c : ascii) (s : string) : option string :=
  match s with
  | EmptyString => None
  | String a EmptyString => if Ascii.eqb a c then Some EmptyString else None
  | String a s' =>
      match strip_last c s' with
      | Some r => Some (String a r)
      | None => None
      end
  end.

Definition reported_url (message : string) : option string :=
  match strip_prefix "Your playlist has been created! [Open Playlist](" message with
  | Some rest => strip_last ")"%char rest
  | None => None
  end.

Definition parse_playlist_id (url : string) : option string :=
  strip_prefix "https://open.spotify.com/playlist/" url.

(** The answer to the keyword search is a transport or HTTP error: the
    request raised an exception of the [requests] family, or it came back
    with a 4xx or 5xx status. *)
Definition transport_or_http_error (a : Exn + Response) : bool :=
  match a with
  | inl e => is_RequestException e
  | inr r => (400 <=? status_code r) && (status_code r <? 600)
  end.

Definition is_some {A} (o : option A) : bool :=
  match o with
  | Some _ => true
  | None => false
  end.

(** The track has a first artist to name. *)
Definition has_artist (track : Track) : bool :=
  match track_artists track with
  | [] => false
  | _ :: _ => true
  end.

(** The line of text for a track of the recommender: its name and the name
    of its first artist. *)
Definition entry (track : Track) : string :=
  (track_name track ++ " by "
     ++ match track_artists track with
        | artist :: _ => artist_name artist
        | [] => EmptyString
        end)%string.

(** ** The shape of a run of the materializer *)

(** The events of the resolution loop: catalog searches through [sp],
    restricted to tracks, one result asked for. *)
Definition track_search (sp : Spotify) (e : Event) : Prop :=
  exists q r, e = Ev (sp_search sp q "track" 1) r.

(** The searches the loop issues for the candidates [songs]. *)
Definition searches_for (songs : list string) (S : list Event) : Prop :=
  map search_args S = map (fun song => Some (song, "track", 1)) songs.

(** The runs of [create_spotify_playlist user name songs] through the client
    [sp]: the result and the calls made. *)
Inductive materializer_run (sp : Spotify) (user name : string) (songs : list string)
  : Exn + string -> list Event -> Prop :=
| run_create_raised e :
    materializer_run sp user name songs (inl e)
      [Ev (sp_user_playlist_create sp user name false) (inl e)]
| run_search_raised pl S e k :
    Forall (track_search sp) S ->
    searches_for (firstn k songs) S ->
    forallb returned S = false ->
    materializer_run sp user name songs (inl e)
      (Ev (sp_user_playlist_create sp user name false) (inr pl) :: S)
| run_no_append pl S :
    Forall (track_search sp) S ->
    searches_for songs S ->
    forallb returned S = true ->
    resolved_uris S = [] ->
    materializer_run sp user name songs (inr (app3.confirmation (id pl)))
      (Ev (sp_user_playlist_create sp user name false) (inr pl) :: S)
| run_append pl S r :
    Forall (track_search sp) S ->
    searches_for songs S ->
    forallb returned S = true ->
    resolved_uris S <> [] ->
    materializer_run sp user name songs
      (match r with
       | inl e => inl e
       | inr _ => inr (app3.confirmation (id pl))
       end)
      (Ev (sp_user_playlist_create sp user name false) (inr pl)
         :: S ++ [Ev (sp_playlist_add_items sp (id pl) (resolved_uris S)) r]).

(** ** Worlds to run the scripts in *)

(** A world with fixed answers: a catalog, a recommender, the identifier of
    the next playlist, the answer of the keyword search and of the agent. *)
Record Script := {
  s_search : string -> list Track;
  s_recommendations : list string -> list Track;
  s_playlist_id : string;
  s_http : Exn + Response;
  s_chat : string -> string
}.

Definition world_of (s : Script) : World :=
  {| environ := fun _ => None;
     respond := fun T c _ =>
       match c in Call T return Exn + T with
       | requests_get _ _ _ _ => s_http s
       | sp_search _ q _ _ => inr {| items := s_search s q |}
       | sp_recommendations _ seeds _ => inr {| rec_tracks := s_recommendations s seeds |}
       | sp_user_playlist_create _ _ _ _ => inr {| id := s_playlist_id s |}
       | sp_playlist_add_items _ _ _ => inr tt
       | path_exists _ => inr false
       | load_data _ => inr [{| doc_text := "notes" |}]
       | from_documents d => inr {| index_docs := d |}
       | load_index_from_storage _ => inr {| index_docs := [] |}
       | OpenAI model _ => inr {| llm_model := model |}
       | OpenAIEmbeddings model _ => inr {| embedding_model := model |}
       | as_query_engine _ _ _ k => inr {| engine_top_k := k |}
       | agent_chat m => inr {| response := s_chat s m |}
       | st_error _ => inr tt
       end |}.

Definition weightless : Track :=
  {| track_id := "6dGnYIeXmHdcikdzNNDMm2";
     track_uri := "spotify:track:6dGnYIeXmHdcikdzNNDMm2";
     track_name := "Weightless";
     track_artists := [{| artist_name := "Marconi Union" |}] |}.

(** A catalog that knows one track under two names. *)
Definition small_catalog (q : string) : list Track :=
  if String.eqb q "Weightless" then [weightless]
  else if String.eqb q "Weightless by Marconi Union" then [weightless]
  else [].

(** The keyword search fails with status 500; the catalog is empty. *)
Definition silent_script : Script :=
  {| s_search := fun _ => [];
     s_recommendations := fun _ => [];
     s_playlist_id := "37i9dQZF1DX";
     s_http := inr {| status_code := 500; json := inr {| organic := None |} |};
     s_chat := fun m => m |}.

(** The keyword search answers three results, one without a title; the
    catalog is [small_catalog] and the recommender has nothing to add. *)
Definition small_script : Script :=
  {| s_search := small_catalog;
     s_recommendations := fun _ => [];
     s_playlist_id := "37i9dQZF1DX";
     s_http := inr {| status_code := 200;
                      json := inr {| organic := Some
                        [{| title := Some "Weightless"; link := None |};
                         {| title := None; link := Some "https://example.org" |};
                         {| title := Some "Clair de Lune"; link := None |}] |} |};
     s_chat := fun m => m |}.

Definition silent_world : World := world_of silent_script.
Definition small_world : World := world_of small_script.

(** Three candidates: two names of one track around a name the catalog does
    not know. *)
Definition three_songs : list string :=
  ["Weightless"; "Nothing Here"; "Weightless by Marconi Union"].

(** The two tools that [app3] registers, in the order of line 117. *)
Definition two_tools (w : World) (sp : Spotify) : list Tool :=
  [QueryEngineTool "document_search"
     "Search through a document corpus to refine song recommendations";
   FunctionTool (app3.song_recommendation_function w sp) "song_recommendations"
     "Fetches song recommendations from Spotify based on the filtered query"].

(** A stand-in for [self]: an object whose agent shows the two tools in a
    [tools] attribute, which the agent of [app3] does not. *)
Definition generator (w : World) (data_path : string) (index : VectorStoreIndex)
  : PlaylistGeneratorWithLlamaIndex :=
  {| data_path := data_path;
     self_sp := app3.oauth_client w;
     index := index;
     agent := stand_in (two_tools w (app3.oauth_client w)) |}.

(** An instance whose agent came from [ReActAgent.from_tools]. *)
Definition with_agent (w : World) (data_path : string) (index : VectorStoreIndex)
  : PlaylistGeneratorWithLlamaIndex :=
  {| data_path := data_path;
     self_sp := app3.oauth_client w;
     index := index;
     agent := ReActAgent (two_tools w (app3.oauth_client w)) |}.


Definition small_run : Py string :=
  app3.generate_playlist small_world
    (with_agent small_world "data/music_data" {| index_docs := [] |})
    "Weightless" "alice".

(** A call of the construction of the generator: the documents, the index,
    the models and the query engine. *)
Definition is_construction (e : Event) : bool :=
  match e with
  | Ev (load_data _) _ => true
  | Ev (from_documents _) _ => true
  | Ev (OpenAI _ _) _ => true
  | Ev (OpenAIEmbeddings _ _) _ => true
  | Ev (as_query_engine _ _ _ _) _ => true
  | _ => false
  end.

(** The query engine was built: the call [as_query_engine] returned. *)
Definition query_engine_built (e : Event) : bool :=
  match e with
  | Ev (as_query_engine _ _ _ _) (inr _) => true
  | _ => false
  end.

(** The three credentials [SpotifyOAuth] asks for are in the environment. *)
Definition credentials_set (w : World) : bool :=
  is_some (environ w "SPOTIPY_CLIENT_ID")
  && is_some (environ w "SPOTIPY_CLIENT_SECRET")
  && is_some (environ w "SPOTIPY_REDIRECT_URI").

(** A call to the agent. *)
Definition is_chat (e : Event) : bool :=
  match e with
  | Ev (agent_chat _) _ => true
  | _ => false
  end.

(** The world [w] with the environment [env]. *)
Definition with_environ (w : World) (env : string -> option string) : World :=
  {| environ := env; respond := respond w |}.

(** An environment with the Spotify credentials and nothing else. *)
Definition spotify_env (key : string) : option string :=
  if String.eqb key "SPOTIPY_CLIENT_ID" then Some "f3a1c0de"
  else if String.eqb key "SPOTIPY_CLIENT_SECRET" then Some "9b7e44aa"
  else if String.eqb key "SPOTIPY_REDIRECT_URI" then Some "http://localhost:8888/callback"
  else None.

(** ** The pages of the two Streamlit scripts

    A script is run once per interaction.  The input widgets give it the
    values of [Widgets]; what it renders, other than through [st.error], is
    a list of [Element]; [st.error] stays with the calls, where the functions
    of the scripts put it. *)

Inductive Element :=
| st_title (body : string)
| st_subheader (body : string)
| st_write (body : string)
| st_success (body : string)
| st_markdown (body : string).

(** What [st.text_input], [st.text_area], [st.button] and [st.slider]
    return in this run of the script. *)
Record Widgets := {
  text_input : string;
  text_area : string;
  button : bool;
  slider : Z
}.

(** A computation that renders: the page so far is threaded next to the
    trace, and kept when an exception propagates. *)
Definition Page (A : Type) : Type :=
  list Element -> list Event -> (Exn + A) * list Element * list Event.

Definition page_ret {A} (a : A) : Page A := fun p h => (inr a, p, h).

Definition page_bind {A B} (m : Page A) (f : A -> Page B) : Page B :=
  fun p h =>
    match m p h with
    | (inr a, p', h') => f a p' h'
    | (inl e, p', h') => (inl e, p', h')
    end.

Declare Scope page_scope.
Delimit Scope page_scope with page.
Notation "x <- m ;; k" := (page_bind m (fun x => k))
  (at level 100, m at next level, right associativity) : page_scope.
Notation "m ;;; k" := (page_bind m (fun _ => k))
  (at level 100, right associativity) : page_scope.

(** A function of the script called from the page. *)
Definition lift {A} (m : Py A) : Page A :=
  fun p h => let (r, h') := m h in (r, p, h').

(** A display call. *)
Definition render (e : Element) : Page unit := fun p h => (inr tt, p ++ [e], h).

(** [try: body except Exception as e: handler]. *)
Definition page_try_except {A} (body : Page A) (handler : Exn -> Page A) : Page A :=
  fun p h =>
    match body p h with
    | (inl e, p', h') => handler e p' h'
    | ok => ok
    end.

(** [str(i)] for a counter. *)
Definition str_nat (i : nat) : string := NilZero.string_of_uint (Nat.to_uint i).

(** [bool(s)] for a string. *)
Definition nonempty (s : string) : bool := negb (String.eqb s EmptyString).

(** Reading a global name in a module that binds [bound]. *)
Definition load_name (bound : list string) (name : string) : Py unit :=
  if existsb (String.eqb name) bound
  then ret tt
  else raise {| exn_class := NameError;
                exn_msg := ("name '" ++ name ++ "' is not defined")%string |}.

(** *** app3.py, lines 141-168 *)

Module app3_page.
Section WithWorld.

Variable w : World.

Definition main (ui : Widgets) : Page unit :=
  (render (st_title "ChordCloud's Personalized Playlist Generator") ;;;
   let user_id := text_input ui in
   let user_query := text_area ui in
   if button ui then
     if negb (nonempty user_query) || negb (nonempty user_id) then
       lift (st_error_ "Please enter both a Spotify user ID and a playlist query.")
     else
       let data_path := "data/music_data" in
       playlist_generator <- lift (app3.__init__ w data_path) ;;
       page_try_except
         (playlist_url <-
            lift (app3.generate_playlist w playlist_generator user_query user_id) ;;
          render (st_success "Your personalized playlist has been generated!") ;;;
          render (st_markdown playlist_url))
         (fun e => lift (st_error_ ("Error: " ++ exn_msg e)%string))
   else page_ret tt)%page.

End WithWorld.
End app3_page.

(** *** app.py, lines 1-11, 75-122 *)

Module app_page.

(** The names bound at module level in [app.py]: its imports, its
    assignments and its functions. *)
Definition module_globals : list string :=
  ["os"; "random"; "st"; "load_dotenv"; "requests"; "spotipy";
   "SpotifyClientCredentials"; "SpotifyOAuth"; "List"; "Tuple"; "Dict";
   "serperdev_api_key"; "groq_api_key"; "spotipy_client_id";
   "spotipy_client_secret"; "spotify"; "fetch_playlist_data"; "create_playlist";
   "recommend_similar_songs"; "generate_playlist"; "main"].

Section WithWorld.

Variable w : World.

(** Lines 75-91: the function [generate_playlist] at module level; the
    materializer it names is not a name of this module. *)
Definition generate_playlist (self : PlaylistGeneratorWithLlamaIndex)
  (user_query user_id : string) : Py string :=
  response_ <- call w (agent_chat user_query) ;;
  let refined_query := response response_ in
  tools <- agent_tools (agent self) ;;
  tool <- tools_getitem tools 1 ;;
  fn <- tool_fn tool ;;
  playlist_songs <- fn refined_query ;;
  let song_list := split newline playlist_songs in
  load_name module_globals "create_spotify_playlist" ;;;
  playlist_url <- app3.create_spotify_playlist w user_id "Generated Playlist" song_list ;;
  ret playlist_url.

(** Lines 113-114: [for i, song in enumerate(similar_songs, 1):
    st.write(f"{i}. {song}")]. *)
Fixpoint write_enumerated (i : nat) (similar_songs : list string) : Page unit :=
  match similar_songs with
  | [] => page_ret tt
  | song :: rest =>
      (render (st_write (str_nat i ++ ". " ++ song)%string) ;;;
       write_enumerated (S i) rest)%page
  end.

Definition main (ui : Widgets) : Page unit :=
  (render (st_title "ChordCloud's Personalized Playlist Recommender") ;;;
   let user_id := text_input ui in
   let user_query := text_area ui in
   if nonempty user_query then
     relevant_songs <- lift (app.create_playlist w user_query) ;;
     if truthy relevant_songs then
       let num_recommendations := slider ui in
       seed <- lift (value_getitem0 relevant_songs) ;;
       similar_songs <- lift (app.recommend_similar_songs w seed num_recommendations) ;;
       render (st_subheader "Recommended Songs:") ;;;
       write_enumerated 1 similar_songs ;;;
       let REDIRECT_URI := "https://chordcloud/callback" in
       let scope := "playlist-modify-private" in
       let sp :=
         {| auth_manager :=
              Some (SpotifyOAuth (app.spotipy_client_id w) (app.spotipy_client_secret w)
                      (Some REDIRECT_URI) scope);
            client_credentials_manager := None;
            requests_timeout := None |} in
       page_ret tt
     else page_ret tt
   else page_ret tt)%page.

End WithWorld.
End app_page.

(** ** Reading a page and a candidate list *)

(** The result of a page computation started on the page [p] after the
    calls [h], the page it leaves and the calls it adds. *)
Definition page_outcome {A} (m : Page A) (p : list Element) (h : list Event)
  : Exn + A := fst (fst (m p h)).

Definition page_elements {A} (m : Page A) (p : list Element) (h : list Event)
  : list Element := snd (fst (m p h)).

Definition page_events {A} (m : Page A) (p : list Element) (h : list Event)
  : list Event := skipn (length h) (snd (m p h)).

(** The lines [main] of [app.py] writes for a result list: the entries
    with their rank, counted from 1. *)
Definition numbered (similar_songs : list string) : list Element :=
  map (fun item => st_write (str_nat (fst item) ++ ". " ++ snd item)%string)
      (combine (seq 1 (length similar_songs)) similar_songs).

(** The seed [main] of [app.py] takes from what [create_playlist] returned. *)
Definition seed_of (v : CreatePlaylistValue) : string :=
  match v with
  | PyTuple message _ => message
  | PyList l => hd EmptyString l
  end.

(** The text has no line break. *)
Fixpoint one_line (s : string) : bool :=
  match s with
  | EmptyString => true
  | String c s' => negb (Ascii.eqb c newline) && one_line s'
  end.

(** A playlist mutation: a creation or an append. *)
Definition is_mutation (e : Event) : bool := is_playlist_create e || is_add_items e.

(** The exception a call raised. *)
Definition raised (e : Event) : option Exn :=
  match e with
  | Ev _ (inl x) => Some x
  | Ev _ (inr _) => None
  end.

(** ** More worlds *)

(** A second track with an artist. *)
Definition clair_de_lune : Track :=
  {| track_id := "5u5aVJKjSMJr4zesMPz7bL";
     track_uri := "spotify:track:5u5aVJKjSMJr4zesMPz7bL";
     track_name := "Clair de Lune";
     track_artists := [{| artist_name := "Claude Debussy" |};
                       {| artist_name := "Martin Jones" |}] |}.

(** [small_world] with a catalog that answers two tracks to any query. *)
Definition duo_world : World :=
  world_of {| s_search := fun _ => [weightless; clair_de_lune];
              s_recommendations := fun _ => [];
              s_playlist_id := "37i9dQZF1DX";
              s_http := s_http small_script;
              s_chat := fun m => m |}.

(** A track as the catalog may return it: without an artist. *)
Definition anonymous : Track :=
  {| track_id := "0VjIjW4GlUZAMYd2vXMi3b";
     track_uri := "spotify:track:0VjIjW4GlUZAMYd2vXMi3b";
     track_name := "Untitled";
     track_artists := [] |}.

(** [small_world] with a recommender that knows two tracks. *)
Definition generous_world : World :=
  world_of {| s_search := small_catalog;
              s_recommendations := fun _ => [weightless; weightless];
              s_playlist_id := "37i9dQZF1DX";
              s_http := s_http small_script;
              s_chat := fun m => m |}.

(** [small_world] with a catalog and a recommender that answer a track
    without an artist. *)
Definition anonymous_world : World :=
  world_of {| s_search := fun _ => [weightless; anonymous];
              s_recommendations := fun _ => [weightless; anonymous];
              s_playlist_id := "37i9dQZF1DX";
              s_http := s_http small_script;
              s_chat := fun m => m |}.

(** The world [w] with a catalog that refuses the query [bad]. *)
Definition refusing (w : World) (bad : string) : World :=
  {| environ := environ w;
     respond := fun T c h =>
       match c in Call T return (Exn + T) -> Exn + T with
       | sp_search _ q _ _ =>
           fun answer =>
             if String.eqb q bad
             then inl {| exn_class := SpotifyException; exn_msg := "rate limited" |}
             else answer
       | _ => fun answer => answer
       end (respond w T c h) |}.

(** The world [w] where the index directory exists or not. *)
Definition with_index_dir (w : World) (found : bool) : World :=
  {| environ := environ w;
     respond := fun T c h =>
       match c in Call T return (Exn + T) -> Exn + T with
       | path_exists _ => fun _ => inr found
       | _ => fun answer => answer
       end (respond w T c h) |}.

(** The world [w] with an empty data directory. *)
Definition without_documents (w : World) : World :=
  {| environ := environ w;
     respond := fun T c h =>
       match c in Call T return (Exn + T) -> Exn + T with
       | load_data _ => fun _ => inr []
       | _ => fun answer => answer
       end (respond w T c h) |}.

(** A visitor of the page of [app3]: both fields filled, the button pressed. *)
Definition alice : Widgets :=
  {| text_input := "alice"; text_area := "Weightless"; button := true; slider := 5 |}.

(** * Properties *)

(** ** Traces *)

Lemma events_app {A} (m : Py A) (h evs : list Event) (o : Exn + A) :
  m h = (o, h ++ evs) -> outcome m h = o /\ events m h = evs.
Proof.
  intros E. unfold outcome, events. rewrite E. cbn [fst snd]. split; [reflexivity|].
  rewrite skipn_app, skipn_all, Nat.sub_diag. reflexivity.
Qed.

Lemma events_nil {A} (m : Py A) (h : list Event) (o : Exn + A) :
  m h = (o, h) -> events m h = [].
Proof. intros E. unfold events. rewrite E. apply skipn_all. Qed.

Lemma call_eq (w : World) {T} (c : Call T) (h : list Event) :
  call w c h = (respond w T c h, h ++ [Ev c (respond w T c h)]).
Proof. reflexivity. Qed.

Lemma resolved_uris_app (S1 S2 : list Event) :
  resolved_uris (S1 ++ S2) = resolved_uris S1 ++ resolved_uris S2.
Proof.
  induction S1 as [|e S1 IH]; cbn [resolved_uris app]; [reflexivity|].
  destruct (top_hit e); rewrite IH; reflexivity.
Qed.

Lemma resolved_uris_length (S : list Event) :
  length (resolved_uris S) = length (filter resolved S).
Proof.
  induction S as [|e S IH]; cbn [resolved_uris filter]; [reflexivity|].
  unfold resolved. destruct (top_hit e); cbn [length]; rewrite IH; reflexivity.
Qed.

Lemma created_ids_app (S1 S2 : list Event) :
  created_ids (S1 ++ S2) = created_ids S1 ++ created_ids S2.
Proof.
  induction S1 as [|[T c r] S1 IH]; [reflexivity|].
  destruct c; cbn; try exact IH. destruct r; cbn; now rewrite IH.
Qed.

Lemma playlist_tracks_app (pid : string) (S1 S2 : list Event) :
  playlist_tracks pid (S1 ++ S2) = playlist_tracks pid S1 ++ playlist_tracks pid S2.
Proof.
  induction S1 as [|[T c r] S1 IH]; [reflexivity|].
  destruct c; cbn; try exact IH. destruct r; [exact IH|].
  destruct (String.eqb pid playlist_id); [|exact IH].
  now rewrite IH, app_assoc.
Qed.

Section Searches.

Variable sp : Spotify.

Lemma track_search_is_search (S : list Event) :
  Forall (track_search sp) S -> filter is_search S = S.
Proof.
  induction 1 as [|e S (q & r & ->) _ IH]; cbn; [reflexivity|]. now rewrite IH.
Qed.

Lemma track_search_not_add (S : list Event) :
  Forall (track_search sp) S -> filter is_add_items S = [].
Proof.
  induction 1 as [|e S (q & r & ->) _ IH]; cbn; [reflexivity|]. exact IH.
Qed.

Lemma track_search_not_add_keep (S : list Event) :
  Forall (track_search sp) S -> filter (fun e => negb (is_add_items e)) S = S.
Proof.
  induction 1 as [|e S (q & r & ->) _ IH]; cbn; [reflexivity|]. now rewrite IH.
Qed.

Lemma track_search_created (S : list Event) :
  Forall (track_search sp) S -> created_ids S = [].
Proof.
  induction 1 as [|e S (q & r & ->) _ IH]; cbn; [reflexivity|]. exact IH.
Qed.

Lemma track_search_playlist_tracks (pid : string) (S : list Event) :
  Forall (track_search sp) S -> playlist_tracks pid S = [].
Proof.
  induction 1 as [|e S (q & r & ->) _ IH]; cbn; [reflexivity|]. exact IH.
Qed.

Lemma track_search_mutation_ok (user name : string) (S : list Event) :
  Forall (track_search sp) S -> forallb (mutation_ok user name) S = true.
Proof.
  induction 1 as [|e S (q & r & ->) _ IH]; cbn; [reflexivity|]. exact IH.
Qed.


End Searches.

(** One turn of the resolution loop. *)
Lemma for_each_search_song_cons (w : World) (sp : Spotify) (song : string)
  (songs acc : list string) (h : list Event) :
  for_each (song :: songs) (app3.search_song w sp) acc h =
  match respond w _ (sp_search sp song "track" 1) h with
  | inl e => (inl e, h ++ [Ev (sp_search sp song "track" 1) (inl e)])
  | inr res =>
      for_each songs (app3.search_song w sp)
        (match items res with
         | track :: _ => acc ++ [track_uri track]
         | [] => acc
         end)
        (h ++ [Ev (sp_search sp song "track" 1) (inr res)])
  end.
Proof.
  cbn [for_each]. unfold bind at 1. unfold app3.search_song at 1.
  unfold bind at 1. rewrite call_eq.
  destruct (respond w SearchResults (sp_search sp song "track" 1) h) as [e|res];
    [reflexivity|].
  destruct (items res); reflexivity.
Qed.

(** The resolution loop, from any list of identifiers found so far and after
    any calls: it adds track searches only, one per candidate in order until
    one raises, and ends with the identifiers of the resolved ones appended. *)
Lemma for_each_search_song (w : World) (sp : Spotify) (songs : list string) :
  forall (acc : list string) (h : list Event),
  exists S,
    snd (for_each songs (app3.search_song w sp) acc h) = h ++ S
    /\ Forall (track_search sp) S
    /\ match fst (for_each songs (app3.search_song w sp) acc h) with
       | inr uris =>
           uris = acc ++ resolved_uris S
           /\ searches_for songs S
           /\ forallb returned S = true
       | inl _ =>
           forallb returned S = false
           /\ exists k, searches_for (firstn k songs) S
       end.
Proof.
  induction songs as [|song songs IH]; intros acc h.
  - exists []. cbn. rewrite !app_nil_r. repeat split; constructor.
  - rewrite for_each_search_song_cons.
    set (c := sp_search sp song "track" 1).
    destruct (respond w SearchResults c h) as [e|res].
    + exists [Ev c (inl e)]. cbn. repeat split.
      * constructor; [now exists song, (inl e)|constructor].
      * exists 1%nat. reflexivity.
    + set (ev := Ev c (inr res)).
      assert (TS : track_search sp ev) by now exists song, (inr res).
      assert (TH : top_hit ev = hd_error (items res)) by reflexivity.
      set (acc' := match items res with
                   | track :: _ => acc ++ [track_uri track]
                   | [] => acc
                   end).
      assert (A : forall S, acc' ++ resolved_uris S = acc ++ resolved_uris (ev :: S)).
      { intros S. cbn [resolved_uris]. rewrite TH. subst acc'.
        destruct (items res); cbn [hd_error]; [reflexivity|].
        now rewrite <- app_assoc. }
      destruct (IH acc' (h ++ [ev])) as (S & E1 & E2 & E3).
      exists (ev :: S). rewrite E1, <- app_assoc. split; [reflexivity|].
      split; [now constructor|].
      destruct (fst _) as [e|uris].
      * destruct E3 as (F & k & Sk). split; [exact F|].
        exists (Datatypes.S k). unfold searches_for in *. cbn. now rewrite Sk.
      * destruct E3 as (-> & Sk & F). split; [apply A|]. split; [|exact F].
        unfold searches_for in *. cbn. now rewrite Sk.
Qed.

(** ** The materializer *)

(** Every run of [create_spotify_playlist] has one of the four shapes of
    [materializer_run], whatever the world answers. *)
Lemma create_spotify_playlist_run (w : World) (user_id playlist_name : string)
  (song_list : list string) (h : list Event) :
  exists o evs,
    app3.create_spotify_playlist w user_id playlist_name song_list h = (o, h ++ evs)
    /\ materializer_run (app3.oauth_client w) user_id playlist_name song_list o evs.
Proof.
  unfold app3.create_spotify_playlist. cbv zeta.
  set (sp := app3.oauth_client w).
  set (c := sp_user_playlist_create sp user_id playlist_name false).
  unfold bind at 1. rewrite call_eq.
  destruct (respond w PlaylistObj c h) as [e|pl].
  { exists (inl e), [Ev c (inl e)]. split; [reflexivity|constructor]. }
  unfold bind at 1.
  destruct (for_each_search_song w sp song_list [] (h ++ [Ev c (inr pl)]))
    as (S & E1 & E2 & E3).
  destruct (for_each song_list (app3.search_song w sp) [] (h ++ [Ev c (inr pl)]))
    as [o' h'].
  cbn [fst snd] in E1, E3. subst h'. rewrite <- app_assoc. cbn [app].
  destruct o' as [e|uris].
  { destruct E3 as (F & k & Sk).
    exists (inl e), (Ev c (inr pl) :: S). split; [reflexivity|].
    now apply run_search_raised with (k := k). }
  destruct E3 as (-> & Sk & F). cbn [app].
  destruct (resolved_uris S) as [|u us] eqn:RU.
  { exists (inr (app3.confirmation (id pl))), (Ev c (inr pl) :: S).
    split; [reflexivity|]. now apply run_no_append. }
  unfold bind at 1. rewrite call_eq. rewrite <- RU.
  set (a := sp_playlist_add_items sp (id pl) (resolved_uris S)).
  exists (match respond w unit a (h ++ Ev c (inr pl) :: S) with
          | inl e => inl e
          | inr _ => inr (app3.confirmation (id pl))
          end), (Ev c (inr pl) :: S ++ [Ev a (respond w unit a (h ++ Ev c (inr pl) :: S))]).
  split.
  - destruct (respond w unit a (h ++ Ev c (inr pl) :: S)) as [e|[]];
      cbn; rewrite <- app_assoc; reflexivity.
  - apply run_append; try assumption. rewrite RU. discriminate.
Qed.

Lemma create_spotify_playlist_shape (w : World) (user_id playlist_name : string)
  (song_list : list string) (h : list Event) :
  materializer_run (app3.oauth_client w) user_id playlist_name song_list
    (outcome (app3.create_spotify_playlist w user_id playlist_name song_list) h)
    (events (app3.create_spotify_playlist w user_id playlist_name song_list) h).
Proof.
  destruct (create_spotify_playlist_run w user_id playlist_name song_list h)
    as (o & evs & E & R).
  destruct (events_app _ _ _ _ E) as [-> ->]. exact R.
Qed.

Lemma resolved_uris_run_tail (S tail : list Event) :
  (forall e, In e tail -> top_hit e = None) ->
  resolved_uris (S ++ tail) = resolved_uris S.
Proof.
  intros N. rewrite resolved_uris_app.
  assert (E : resolved_uris tail = []).
  { induction tail as [|e tail IH]; [reflexivity|]. cbn [resolved_uris].
    rewrite (N e (or_introl eq_refl)). apply IH. intros e' I. apply N. now right. }
  rewrite E. apply app_nil_r.
Qed.

(** C2: when [create_spotify_playlist] returns, the one playlist it created
    holds exactly the identifiers of the candidates that resolved: as many
    entries as searches with a top hit, in the order of the searches, which
    is the order of the candidates, and an identifier found twice is kept
    twice. *)
Theorem create_spotify_playlist_tracks (w : World) (user_id playlist_name : string)
  (song_list : list string) (h : list Event) (message : string) :
  outcome (app3.create_spotify_playlist w user_id playlist_name song_list) h
    = inr message ->
  let evs := events (app3.create_spotify_playlist w user_id playlist_name song_list) h in
  exists pid,
    created_ids evs = [pid]
    /\ message = app3.confirmation pid
    /\ searches_for song_list (filter is_search evs)
    /\ playlist_tracks pid evs = resolved_uris evs
    /\ length (playlist_tracks pid evs) = length (filter resolved evs).
Proof.
  intros O evs. subst evs.
  pose proof (create_spotify_playlist_shape w user_id playlist_name song_list h) as R.
  rewrite O in R. clear O.
  remember (inr message) as o eqn:Eo.
  destruct R as [e|pl S e k TS Sk F|pl S TS Sk F RU|pl S r TS Sk F RU];
    try discriminate Eo.
  - injection Eo as <-. exists (id pl).
    rewrite <- resolved_uris_length.
    cbn [created_ids playlist_tracks resolved_uris top_hit filter is_search].
    rewrite (track_search_is_search _ _ TS), (track_search_created _ _ TS),
      (track_search_playlist_tracks _ _ _ TS), RU.
    repeat split; assumption.
  - destruct r as [e|[]]; [discriminate Eo|]. injection Eo as <-.
    exists (id pl).
    set (a := Ev (sp_playlist_add_items (app3.oauth_client w) (id pl) (resolved_uris S))
                (inr tt)).
    assert (RA : resolved_uris (S ++ [a]) = resolved_uris S).
    { apply resolved_uris_run_tail. intros e [<-|[]]. reflexivity. }
    rewrite <- resolved_uris_length.
    cbn [created_ids playlist_tracks resolved_uris top_hit filter is_search].
    rewrite created_ids_app, playlist_tracks_app, filter_app.
    rewrite (track_search_is_search _ _ TS), (track_search_created _ _ TS),
      (track_search_playlist_tracks _ _ _ TS), RA.
    cbn [created_ids playlist_tracks filter is_search a app].
    rewrite String.eqb_refl, !app_nil_r.
    repeat split; assumption.
Qed.

Lemma create_spotify_playlist_tracks_witness :
  outcome (app3.create_spotify_playlist small_world "alice" "Focus" three_songs) []
    = inr (app3.confirmation "37i9dQZF1DX")
  /\ exists pid,
       created_ids (events (app3.create_spotify_playlist small_world "alice" "Focus"
                              three_songs) []) = [pid]
       /\ app3.confirmation "37i9dQZF1DX" = app3.confirmation pid
       /\ searches_for three_songs
            (filter is_search (events (app3.create_spotify_playlist small_world "alice"
                                         "Focus" three_songs) []))
       /\ playlist_tracks pid (events (app3.create_spotify_playlist small_world "alice"
                                         "Focus" three_songs) [])
          = resolved_uris (events (app3.create_spotify_playlist small_world "alice"
                                     "Focus" three_songs) [])
       /\ length (playlist_tracks pid (events (app3.create_spotify_playlist small_world
                                                 "alice" "Focus" three_songs) []))
          = length (filter resolved (events (app3.create_spotify_playlist small_world
                                               "alice" "Focus" three_songs) [])).
Proof.
  split; [reflexivity|].
  exact (create_spotify_playlist_tracks small_world "alice" "Focus" three_songs []
           (app3.confirmation "37i9dQZF1DX") eq_refl).
Defined.

(** The two names of the one track both land in the playlist, around the
    candidate that did not resolve. *)
Example duplicate_identifiers_kept :
  playlist_tracks "37i9dQZF1DX"
    (events (app3.create_spotify_playlist small_world "alice" "Focus" three_songs) [])
  = ["spotify:track:6dGnYIeXmHdcikdzNNDMm2"; "spotify:track:6dGnYIeXmHdcikdzNNDMm2"].
Proof. reflexivity. Qed.

(** C3: in a run where the creation and every search returned, every
    candidate of the list was searched, once and in order, and the append
    call is issued exactly when one of those searches has a top hit, once
    and with all resolved identifiers; when none resolved the playlist is
    created all the same, no append is made, and the confirmation is
    returned. *)
Theorem create_spotify_playlist_append (w : World) (user_id playlist_name : string)
  (song_list : list string) (h : list Event) :
  let m := app3.create_spotify_playlist w user_id playlist_name song_list in
  forallb returned (filter (fun e => negb (is_add_items e)) (events m h)) = true ->
  exists pid,
    created_ids (events m h) = [pid]
    /\ searches_for song_list (filter is_search (events m h))
    /\ (resolved_uris (events m h) = [] ->
        filter is_add_items (events m h) = []
        /\ playlist_tracks pid (events m h) = []
        /\ outcome m h = inr (app3.confirmation pid))
    /\ (resolved_uris (events m h) <> [] ->
        exists r,
          filter is_add_items (events m h)
          = [Ev (sp_playlist_add_items (app3.oauth_client w) pid
                   (resolved_uris (events m h))) r]).
Proof.
  intros m. subst m.
  pose proof (create_spotify_playlist_shape w user_id playlist_name song_list h) as R.
  destruct R as [e|pl S e k TS Sk F|pl S TS Sk F RU|pl S r TS Sk F RU].
  - cbn. discriminate.
  - cbn [filter is_add_items negb forallb returned andb].
    rewrite (track_search_not_add_keep _ _ TS), F. discriminate.
  - intros _. exists (id pl).
    cbn [created_ids playlist_tracks resolved_uris top_hit filter is_add_items
           is_search].
    rewrite (track_search_created _ _ TS), (track_search_not_add _ _ TS),
      (track_search_playlist_tracks _ _ _ TS), (track_search_is_search _ _ TS).
    split; [reflexivity|]. split; [exact Sk|]. split; [intros _; repeat split|].
    intros N. now elim N.
  - intros _. exists (id pl).
    set (c := sp_playlist_add_items (app3.oauth_client w) (id pl) (resolved_uris S)).
    assert (RA : resolved_uris (S ++ [Ev c r]) = resolved_uris S).
    { apply resolved_uris_run_tail. intros e [<-|[]]. reflexivity. }
    cbn [created_ids playlist_tracks resolved_uris top_hit filter is_add_items
           is_search].
    rewrite created_ids_app, !filter_app, RA.
    rewrite (track_search_created _ _ TS), (track_search_not_add _ _ TS),
      (track_search_is_search _ _ TS).
    cbn [filter is_search c app]. rewrite !app_nil_r.
    split; [reflexivity|]. split; [exact Sk|]. split; [intros E; now elim RU|].
    intros _. exists r. reflexivity.
Qed.

Lemma create_spotify_playlist_append_witness :
  (exists pid,
     created_ids (events (app3.create_spotify_playlist silent_world "alice" "Focus"
                            three_songs) []) = [pid]
     /\ searches_for three_songs
          (filter is_search (events (app3.create_spotify_playlist silent_world "alice"
                                       "Focus" three_songs) []))
     /\ filter is_add_items (events (app3.create_spotify_playlist silent_world "alice"
                                       "Focus" three_songs) []) = []
     /\ outcome (app3.create_spotify_playlist silent_world "alice" "Focus" three_songs) []
        = inr (app3.confirmation pid))
  /\ (exists pid r,
        searches_for three_songs
          (filter is_search (events (app3.create_spotify_playlist small_world "alice"
                                       "Focus" three_songs) []))
        /\ filter is_add_items (events (app3.create_spotify_playlist small_world "alice"
                                          "Focus" three_songs) [])
           = [Ev (sp_playlist_add_items (app3.oauth_client small_world) pid
                    ["spotify:track:6dGnYIeXmHdcikdzNNDMm2";
                     "spotify:track:6dGnYIeXmHdcikdzNNDMm2"]) r]).
Proof.
  split.
  - destruct (create_spotify_playlist_append silent_world "alice" "Focus" three_songs []
                eq_refl) as (pid & C & Q & N & _).
    exists pid. split; [exact C|]. split; [exact Q|].
    split; [exact (proj1 (N eq_refl))|exact (proj2 (proj2 (N eq_refl)))].
  - destruct (create_spotify_playlist_append small_world "alice" "Focus" three_songs []
                eq_refl) as (pid & _ & Q & _ & A).
    assert (NE : resolved_uris
                   (events (app3.create_spotify_playlist small_world "alice" "Focus"
                              three_songs) []) <> [])
      by (vm_compute; discriminate).
    destruct (A NE) as [r E].
    exists pid, r. split; [exact Q|exact E].
Defined.

Lemma forallb_mutation_ok_app (user name : string) (S1 S2 : list Event) :
  forallb (mutation_ok user name) (S1 ++ S2)
  = forallb (mutation_ok user name) S1 && forallb (mutation_ok user name) S2.
Proof. apply forallb_app. Qed.

Lemma oauth_client_user_delegated (w : World) :
  user_delegated "playlist-modify-private" (app3.oauth_client w) = true
  /\ app_only (app3.oauth_client w) = false.
Proof. split; reflexivity. Qed.

(** C7: every run of [create_spotify_playlist] starts with the creation of
    a playlist that is private, for the given user and under the given name;
    every creation and every append of the run goes through the client that
    authenticates the user with the scope playlist-modify-private, which is
    not the application-only kind. *)
Theorem create_spotify_playlist_private_oauth (w : World)
  (user_id playlist_name : string) (song_list : list string) (h : list Event) :
  let evs := events (app3.create_spotify_playlist w user_id playlist_name song_list) h in
  (exists r, hd_error evs
             = Some (Ev (sp_user_playlist_create (app3.oauth_client w) user_id
                           playlist_name false) r))
  /\ forallb (mutation_ok user_id playlist_name) evs = true
  /\ user_delegated "playlist-modify-private" (app3.oauth_client w) = true
  /\ app_only (app3.oauth_client w) = false.
Proof.
  intros evs. subst evs.
  assert (C : forall r : Exn + PlaylistObj,
    mutation_ok user_id playlist_name
      (Ev (sp_user_playlist_create (app3.oauth_client w) user_id playlist_name false) r)
    = true).
  { intros r. cbn [mutation_ok]. rewrite !String.eqb_refl. reflexivity. }
  pose proof (create_spotify_playlist_shape w user_id playlist_name song_list h) as R.
  destruct R as [e|pl S e k TS Sk F|pl S TS Sk F RU|pl S r TS Sk F RU];
    (split; [eexists; reflexivity|]);
    (split; [|apply oauth_client_user_delegated]);
    cbn [forallb]; rewrite C; cbn [andb].
  - reflexivity.
  - apply (track_search_mutation_ok _ _ _ _ TS).
  - apply (track_search_mutation_ok _ _ _ _ TS).
  - rewrite forallb_mutation_ok_app, (track_search_mutation_ok _ _ _ _ TS).
    reflexivity.
Qed.

(** ** The confirmation *)

Lemma strip_prefix_app (p s : string) : strip_prefix p (p ++ s)%string = Some s.
Proof.
  induction p as [|a p IH]; cbn; [now destruct s|]. now rewrite Ascii.eqb_refl.
Qed.

Lemma strip_last_app (c : ascii) (s : string) :
  strip_last c (s ++ String c EmptyString)%string = Some s.
Proof.
  induction s as [|a s IH]; cbn; [now rewrite Ascii.eqb_refl|].
  cbn in IH. rewrite IH. now destruct s.
Qed.

Lemma confirmation_read_back (playlist_id : string) :
  reported_url (app3.confirmation playlist_id) = Some (app3.playlist_link playlist_id)
  /\ parse_playlist_id (app3.playlist_link playlist_id) = Some playlist_id.
Proof.
  split.
  - unfold reported_url, app3.confirmation.
    rewrite strip_prefix_app. apply strip_last_app.
  - unfold parse_playlist_id, app3.playlist_link. apply strip_prefix_app.
Qed.

(** C8: the text [create_spotify_playlist] returns is [confirmation] of the
    identifier the creation call answered, a function of that identifier
    alone; the address read out of the text is the playlist link, and the
    identifier read out of the link is that same identifier. *)
Theorem confirmation_round_trip (w : World) (user_id playlist_name : string)
  (song_list : list string) (h : list Event) (message : string) :
  outcome (app3.create_spotify_playlist w user_id playlist_name song_list) h
    = inr message ->
  exists pl,
    hd_error (events (app3.create_spotify_playlist w user_id playlist_name song_list) h)
    = Some (Ev (sp_user_playlist_create (app3.oauth_client w) user_id playlist_name
                  false) (inr pl))
    /\ message = app3.confirmation (id pl)
    /\ reported_url message = Some (app3.playlist_link (id pl))
    /\ parse_playlist_id (app3.playlist_link (id pl)) = Some (id pl).
Proof.
  intros O.
  pose proof (create_spotify_playlist_shape w user_id playlist_name song_list h) as R.
  rewrite O in R. clear O.
  remember (inr message) as o eqn:Eo.
  destruct R as [e|pl S e k TS Sk F|pl S TS Sk F RU|pl S r TS Sk F RU];
    try discriminate Eo.
  - injection Eo as <-. exists pl.
    repeat split; try apply confirmation_read_back.
  - destruct r as [e|[]]; [discriminate Eo|]. injection Eo as <-. exists pl.
    repeat split; try apply confirmation_read_back.
Qed.

Lemma confirmation_round_trip_witness :
  exists pl,
    app3.confirmation "37i9dQZF1DX" = app3.confirmation (id pl)
    /\ parse_playlist_id (app3.playlist_link (id pl)) = Some (id pl).
Proof.
  destruct (confirmation_round_trip small_world "alice" "Focus" three_songs []
              (app3.confirmation "37i9dQZF1DX") eq_refl) as (pl & _ & M & _ & P).
  exists pl. split; [exact M|exact P].
Defined.

(** ** The track resolver *)

(** Formatting the tracks of an answer makes no call. *)
Lemma comprehension_format_track_pure (l : list Track) :
  exists o, forall h : list Event, comprehension format_track l h = (o, h).
Proof.
  induction l as [|t l [o IH]]; [now exists (inr [])|].
  cbn [comprehension]. unfold format_track.
  destruct (track_artists t) as [|a ars].
  - eexists. intros h. reflexivity.
  - destruct o as [e|ys]; eexists; intros h; unfold bind; cbn; rewrite IH; reflexivity.
Qed.

(** When every track names an artist, there is one line per track, in order. *)
Lemma comprehension_format_track_entries (l : list Track) (h : list Event) :
  forallb has_artist l = true ->
  comprehension format_track l h = (inr (map entry l), h).
Proof.
  induction l as [|t l IH]; [reflexivity|].
  cbn [forallb]. intros [A F]%andb_prop.
  cbn [comprehension map]. unfold bind at 1. unfold format_track at 1.
  unfold has_artist in A. unfold entry at 1.
  destruct (track_artists t) as [|a ars]; [discriminate A|].
  cbn [getitem0]. unfold bind at 1. unfold ret at 1 2. unfold bind at 1.
  rewrite (IH F). reflexivity.
Qed.

(** The runs of [recommend_similar_songs]: the seed search, then the
    recommender, then the formatting; an exception at any of the three ends
    in the message of line 72 and the entry of line 73. *)
Lemma recommend_similar_songs_run (w : World) (song_title : string)
  (num_recommendations : Z) (h : list Event) :
  let sp := app.spotify w in
  let c1 := sp_search sp song_title "track" 1 in
  let a1 := respond w _ c1 h in
  let failed (e : Exn) (tr : list Event) : (Exn + list string) * list Event :=
    (inr ["Error fetching recommendations."],
     tr ++ [Ev (st_error ("Error getting recommendations: " ++ exn_msg e)%string)
              (inr tt)]) in
  app.recommend_similar_songs w song_title num_recommendations h =
  match a1 with
  | inl e => failed e (h ++ [Ev c1 a1])
  | inr res =>
      match items res with
      | [] => (inr ["No similar songs found."], h ++ [Ev c1 a1])
      | track :: _ =>
          let c2 := sp_recommendations sp [track_id track] num_recommendations in
          let a2 := respond w _ c2 (h ++ [Ev c1 a1]) in
          match a2 with
          | inl e => failed e (h ++ [Ev c1 a1; Ev c2 a2])
          | inr recs =>
              match fst (comprehension format_track (rec_tracks recs) []) with
              | inl e => failed e (h ++ [Ev c1 a1; Ev c2 a2])
              | inr similar_songs => (inr similar_songs, h ++ [Ev c1 a1; Ev c2 a2])
              end
          end
      end
  end.
Proof.
  cbv zeta. unfold app.recommend_similar_songs, try_except.
  unfold bind at 1. rewrite call_eq.
  destruct (respond w SearchResults (sp_search (app.spotify w) song_title "track" 1) h)
    as [e|res]; [reflexivity|].
  destruct (items res) as [|track rest]; [reflexivity|].
  unfold bind at 1. rewrite call_eq.
  set (h1 := h ++ [Ev (sp_search (app.spotify w) song_title "track" 1) (inr res)]).
  assert (H1 : forall e2 : Event,
            h ++ [Ev (sp_search (app.spotify w) song_title "track" 1) (inr res); e2]
            = h1 ++ [e2]) by (intros e2; subst h1; now rewrite <- app_assoc).
  destruct (respond w Recommendations
              (sp_recommendations (app.spotify w) [track_id track] num_recommendations) h1)
    as [e|recs]; rewrite H1; [reflexivity|].
  destruct (comprehension_format_track_pure (rec_tracks recs)) as [o P].
  unfold bind at 1. rewrite !P. cbn [fst]. destruct o; reflexivity.
Qed.



(** ** The candidate sources of app.py *)

(** What [recommend_similar_songs] returns, by the answers it gets: the
    sentinel of line 63 for an unresolved seed, one line per recommended
    track otherwise; it never raises. *)
Lemma recommend_similar_songs_results (w : World) (song_title : string)
  (num_recommendations : Z) (h : list Event) :
  let m := app.recommend_similar_songs w song_title num_recommendations in
  let c1 := sp_search (app.spotify w) song_title "track" 1 in
  (forall res, respond w _ c1 h = inr res -> items res = [] ->
     outcome m h = inr ["No similar songs found."])
  /\ (forall res track rest recs,
        respond w _ c1 h = inr res -> items res = track :: rest ->
        respond w _ (sp_recommendations (app.spotify w) [track_id track]
                       num_recommendations) (h ++ [Ev c1 (inr res)]) = inr recs ->
        forallb has_artist (rec_tracks recs) = true ->
        outcome m h = inr (map entry (rec_tracks recs)))
  /\ exists l, outcome m h = inr l.
Proof.
  cbv zeta. unfold outcome.
  rewrite (recommend_similar_songs_run w song_title num_recommendations h). cbv zeta.
  set (c1 := sp_search (app.spotify w) song_title "track" 1).
  split; [|split].
  - intros res -> ->. reflexivity.
  - intros res track rest recs -> -> -> F.
    now rewrite (comprehension_format_track_entries _ [] F).
  - destruct (respond w SearchResults c1 h) as [e|res]; [eexists; reflexivity|].
    destruct (items res) as [|track rest]; [eexists; reflexivity|].
    destruct (respond w Recommendations _ _) as [e|recs]; [eexists; reflexivity|].
    destruct (fst (comprehension format_track (rec_tracks recs) []));
      eexists; reflexivity.
Qed.

(** C6: in [small_world] the seed "Weightless" resolves and the recommender
    has no track for it: [recommend_similar_songs] returns the empty list,
    where the claim has the single sentinel entry that the function returns
    for a seed that does not resolve. *)
Theorem recommend_similar_songs_empty_recommender :
  respond small_world _ (sp_search (app.spotify small_world) "Weightless" "track" 1) []
    = inr {| items := [weightless] |}
  /\ events (app.recommend_similar_songs small_world "Weightless" 5) []
     = [Ev (sp_search (app.spotify small_world) "Weightless" "track" 1)
          (inr {| items := [weightless] |});
        Ev (sp_recommendations (app.spotify small_world) [track_id weightless] 5)
          (inr {| rec_tracks := [] |})]
  /\ outcome (app.recommend_similar_songs small_world "Weightless" 5) [] = inr []
  /\ outcome (app.recommend_similar_songs small_world "Nothing Here" 5) []
     = inr ["No similar songs found."].
Proof. repeat split. Qed.

Lemma titles_filter (results : list OrganicResult) :
  map Some (app.titles results) = filter is_some (map title results).
Proof.
  induction results as [|r results IH]; [reflexivity|].
  cbn [app.titles map filter]. destruct (title r); cbn [is_some map]; now rewrite IH.
Qed.

(** The runs of [fetch_playlist_data]: the one request, and the warning
    with the empty document when the request, the status check or the
    decoding raised an exception of the [requests] family. *)
Lemma fetch_playlist_data_run (w : World) (query : string) (h : list Event) :
  let c := app.search_request w query in
  let a := respond w _ c h in
  let warned (e : Exn) : (Exn + SerperDoc) * list Event :=
    (inr {| organic := Some [] |},
     (h ++ [Ev c a])
       ++ [Ev (st_error ("Error fetching data from Serper: " ++ exn_msg e)%string)
             (inr tt)]) in
  let tried (o : Exn + SerperDoc) : (Exn + SerperDoc) * list Event :=
    match o with
    | inr d => (inr d, h ++ [Ev c a])
    | inl e => if is_RequestException e then warned e else (inl e, h ++ [Ev c a])
    end in
  app.fetch_playlist_data w query h =
  match a with
  | inl e => tried (inl e)
  | inr r =>
      if (400 <=? status_code r) && (status_code r <? 600)
      then warned {| exn_class := HTTPError; exn_msg := "HTTP error status" |}
      else tried (json r)
  end.
Proof.
  cbv zeta. unfold app.fetch_playlist_data, try_except.
  unfold bind at 1. rewrite call_eq.
  destruct (respond w Response (app.search_request w query) h) as [e|r];
    [reflexivity|].
  unfold bind at 1. unfold raise_for_status.
  destruct ((400 <=? status_code r) && (status_code r <? 600)); [reflexivity|].
  unfold ret at 1. unfold response_json. destruct (json r) as [e|d]; reflexivity.
Qed.

(** What [create_playlist] returns, by the answer to the keyword search: a
    transport or HTTP error is not propagated; after the warning the result
    is the pair of the message "No songs found." and the empty list.  When
    the search succeeds, the titles are those of the organic results that
    have one, in result order, and they are returned as a list when there is
    one at least, as the same pair when there is none. *)
Lemma create_playlist_results (w : World) (query : string) (h : list Event) :
  let m := app.create_playlist w query in
  let c := app.search_request w query in
  let a := respond w _ c h in
  (transport_or_http_error a = true ->
   outcome m h = inr (PyTuple "No songs found." [])
   /\ exists e,
        events m h
        = [Ev c a;
           Ev (st_error ("Error fetching data from Serper: " ++ exn_msg e)%string)
             (inr tt)])
  /\ (forall r doc,
        a = inr r -> transport_or_http_error a = false -> json r = inr doc ->
        events m h = [Ev c a]
        /\ map Some (app.titles (app.get_organic doc))
           = filter is_some (map title (app.get_organic doc))
        /\ outcome m h
           = inr (match app.titles (app.get_organic doc) with
                  | [] => PyTuple "No songs found." []
                  | _ :: _ => PyList (app.titles (app.get_organic doc))
                  end)).
Proof.
  cbv zeta. set (c := app.search_request w query).
  pose proof (fetch_playlist_data_run w query h) as R. cbv zeta in R. fold c in R.
  split.
  - intros T.
    assert (X : exists e,
              app.create_playlist w query h
              = (inr (PyTuple "No songs found." []),
                 h ++ [Ev c (respond w _ c h);
                       Ev (st_error ("Error fetching data from Serper: "
                                       ++ exn_msg e)%string) (inr tt)])).
    { unfold app.create_playlist, bind. rewrite R.
      destruct (respond w Response c h) as [e|r]; cbn [transport_or_http_error] in T.
      - exists e. rewrite T, <- app_assoc. reflexivity.
      - rewrite T. eexists. rewrite <- app_assoc. reflexivity. }
    destruct X as [e X]. destruct (events_app _ _ _ _ X) as [-> ->].
    split; [reflexivity|]. now exists e.
  - intros r doc A T J.
    assert (X : app.create_playlist w query h
                = (inr (match app.titles (app.get_organic doc) with
                        | [] => PyTuple "No songs found." []
                        | _ :: _ => PyList (app.titles (app.get_organic doc))
                        end), h ++ [Ev c (respond w _ c h)])).
    { unfold app.create_playlist, bind. rewrite R. rewrite A in *.
      cbn [transport_or_http_error] in T. rewrite T, J.
      destruct (app.titles (app.get_organic doc)); reflexivity. }
    destruct (events_app _ _ _ _ X) as [-> ->].
    split; [reflexivity|]. split; [apply titles_filter|reflexivity].
Qed.

Lemma create_playlist_results_witness :
  outcome (app.create_playlist silent_world "lofi beats") []
    = inr (PyTuple "No songs found." [])
  /\ outcome (app.create_playlist small_world "lofi beats") []
     = inr (PyList ["Weightless"; "Clair de Lune"]).
Proof.
  destruct (create_playlist_results silent_world "lofi beats" []) as [E _].
  destruct (create_playlist_results small_world "lofi beats" []) as [_ S].
  split; [exact (proj1 (E eq_refl))|].
  exact (proj2 (proj2 (S _ _ eq_refl eq_refl eq_refl))).
Defined.

(** C5: in [silent_world] the keyword search answers with status 500, a
    failure that [fetch_playlist_data] catches; what [create_playlist] then
    returns is not the empty sequence of the claim but the pair of line 52,
    of length 2 and true in the test of [main], which the empty result is
    meant to fail. *)
Theorem create_playlist_error_not_empty :
  transport_or_http_error
    (respond silent_world _ (app.search_request silent_world "lofi beats") []) = true
  /\ outcome (app.create_playlist silent_world "lofi beats") []
     = inr (PyTuple "No songs found." [])
  /\ outcome (app.create_playlist silent_world "lofi beats") [] <> inr (PyList [])
  /\ py_len (PyTuple "No songs found." []) = 2%nat
  /\ truthy (PyTuple "No songs found." []) = true.
Proof. repeat split. discriminate. Qed.

(** What [main] does with that pair: the test [if relevant_songs:] passes
    and the seed [relevant_songs[0]] is the message. *)
Example seed_after_failed_search :
  outcome (relevant_songs <- app.create_playlist silent_world "lofi beats" ;;
           if truthy relevant_songs then value_getitem0 relevant_songs
           else ret EmptyString) []
  = inr "No songs found.".
Proof. reflexivity. Qed.

(** ** The agent pipeline of app3.py *)


(** The construction of the client: refused when a credential is missing,
    and otherwise the client of [oauth_client]; no call is made. *)
Lemma new_client_run (w : World) (h : list Event) :
  if credentials_set w
  then app3.new_client w h = (inr (app3.oauth_client w), h)
  else exists e, app3.new_client w h = (inl e, h)
                 /\ exn_class e = SpotifyOauthError.
Proof.
  unfold credentials_set, app3.new_client, app3.oauth_client, getenv, bind.
  destruct (environ w "SPOTIPY_CLIENT_ID"); cbn [is_some andb];
    [|eexists; split; reflexivity].
  destruct (environ w "SPOTIPY_CLIENT_SECRET"); cbn [is_some andb];
    [|eexists; split; reflexivity].
  destruct (environ w "SPOTIPY_REDIRECT_URI"); cbn [is_some andb];
    [reflexivity|eexists; split; reflexivity].
Qed.

(** [create_spotify_playlist] from its first line: with the credentials it
    is the run of the calls, without one it ends in the refusal of the
    client. *)
Lemma create_spotify_playlist_entry_run (w : World) (user_id playlist_name : string)
  (song_list : list string) (h : list Event) :
  if credentials_set w
  then app3.create_spotify_playlist_entry w user_id playlist_name song_list h
       = app3.create_spotify_playlist w user_id playlist_name song_list h
  else exists e,
         app3.create_spotify_playlist_entry w user_id playlist_name song_list h
         = (inl e, h)
         /\ exn_class e = SpotifyOauthError.
Proof.
  unfold app3.create_spotify_playlist_entry.
  pose proof (new_client_run w h) as N.
  destruct (credentials_set w); unfold bind at 1.
  - now rewrite N.
  - destruct N as (e & -> & C). now exists e.
Qed.

(** Calls of the construction are not calls to the agent and touch no
    playlist. *)
Lemma construction_only (evs : list Event) :
  forallb is_construction evs = true ->
  filter is_chat evs = [] /\ filter is_mutation evs = [].
Proof.
  induction evs as [|[T c r] evs IH]; [split; reflexivity|].
  cbn [forallb]. intros [C1 C2]%andb_prop.
  destruct c; try discriminate C1;
    cbn [filter is_chat is_mutation is_playlist_create is_add_items orb];
    exact (IH C2).
Qed.

(** The construction of the generator never returns: it ends in an
    exception after calls of the construction only, and once the query
    engine is built the exception is the [TypeError] of the search tool. *)
Lemma init_run (w : World) (data_path : string) (h : list Event) :
  exists e evs,
    app3.__init__ w data_path h = (inl e, h ++ evs)
    /\ forallb is_construction evs = true
    /\ (existsb query_engine_built evs = true ->
        e = {| exn_class := TypeError;
               exn_msg := "QueryEngineTool.__init__() got an unexpected keyword argument 'name'" |}).
Proof.
  unfold app3.__init__, app3.create_index, app3.create_agent. cbv zeta.
  unfold bind at 1. unfold bind at 1. rewrite call_eq.
  destruct (respond w (list Document) (load_data data_path) h) as [e|[|d ds]].
  { do 2 eexists. split; [reflexivity|]. split; [reflexivity|discriminate]. }
  { do 2 eexists. split; [reflexivity|]. split; [reflexivity|discriminate]. }
  rewrite call_eq.
  destruct (respond w VectorStoreIndex (from_documents (d :: ds)) _) as [e|ix].
  { do 2 eexists. split; [rewrite <- app_assoc; reflexivity|].
    split; [reflexivity|discriminate]. }
  unfold bind at 1. unfold bind at 1. rewrite call_eq.
  destruct (respond w LLM _ _) as [e|llm].
  { do 2 eexists. split; [rewrite <- !app_assoc; reflexivity|].
    split; [reflexivity|discriminate]. }
  unfold bind at 1. rewrite call_eq.
  destruct (respond w Embedding _ _) as [e|emb].
  { do 2 eexists. split; [rewrite <- !app_assoc; reflexivity|].
    split; [reflexivity|discriminate]. }
  unfold bind at 1. rewrite call_eq.
  destruct (respond w QueryEngine _ _) as [e|qe].
  { do 2 eexists. split; [rewrite <- !app_assoc; reflexivity|].
    split; [reflexivity|discriminate]. }
  do 2 eexists. split; [rewrite <- !app_assoc; reflexivity|].
  split; reflexivity.
Qed.

(** The runs of [song_recommendation_function]. *)
Lemma song_recommendation_function_run (w : World) (sp : Spotify) (query : string)
  (h : list Event) :
  let c := sp_search sp query "track" 5 in
  let a := respond w _ c h in
  app3.song_recommendation_function w sp query h =
  match a with
  | inl e => (inl e, h ++ [Ev c a])
  | inr res =>
      match items res with
      | [] => (inr "No song recommendations found.", h ++ [Ev c a])
      | _ :: _ =>
          match fst (comprehension format_track (items res) []) with
          | inl e => (inl e, h ++ [Ev c a])
          | inr recommendations =>
              (inr (join (String newline EmptyString) recommendations), h ++ [Ev c a])
          end
      end
  end.
Proof.
  cbv zeta. unfold app3.song_recommendation_function.
  unfold bind at 1. rewrite call_eq.
  destruct (respond w SearchResults (sp_search sp query "track" 5) h) as [e|res];
    [reflexivity|].
  destruct (items res) as [|track rest] eqn:I; [reflexivity|]. rewrite <- I.
  destruct (comprehension_format_track_pure (items res)) as [o P].
  unfold bind at 1. rewrite !P. cbn [fst]. destruct o; reflexivity.
Qed.



(** With tracks in the catalog the run is the same: the chat, then the
    [AttributeError]. *)
Example small_run_fails :
  outcome small_run []
  = inl {| exn_class := AttributeError;
           exn_msg := "'ReActAgent' object has no attribute 'tools'" |}
  /\ events small_run [] = [Ev (agent_chat "Weightless") (inr {| response := "Weightless" |})].
Proof. split; reflexivity. Qed.

(** ** Timeouts *)





(** ** main2.py *)

(** C10: whatever the arguments and the world, constructing the generator
    of [main2] raises [NameError] for [SpotifyClientCredentials] before any
    outbound call; [load_index] would raise it for [StorageContext], and
    [load_index_from_storage] is unbound as well.  The script therefore ends
    in that first [NameError] without a call to the agent or to the
    catalog: it never reaches [generate_playlist]. *)
Theorem main2_init_name_error (w : World) (data_path index_path : string)
  (h : list Event) :
  main2.__init__ w data_path index_path h
    = (inl {| exn_class := NameError;
              exn_msg := "name 'SpotifyClientCredentials' is not defined" |}, h)
  /\ events (main2.__init__ w data_path index_path) h = []
  /\ main2.load_index w index_path h
     = (inl {| exn_class := NameError;
               exn_msg := "name 'StorageContext' is not defined" |}, h)
  /\ main2.load_global "load_index_from_storage" h
     = (inl {| exn_class := NameError;
               exn_msg := "name 'load_index_from_storage' is not defined" |}, h)
  /\ main2.main w h
     = (inl {| exn_class := NameError;
               exn_msg := "name 'SpotifyClientCredentials' is not defined" |}, h)
  /\ events (main2.main w) h = [].
Proof.
  assert (I : main2.__init__ w data_path index_path h
              = (inl {| exn_class := NameError;
                        exn_msg := "name 'SpotifyClientCredentials' is not defined" |},
                 h)) by reflexivity.
  assert (M : main2.main w h
              = (inl {| exn_class := NameError;
                        exn_msg := "name 'SpotifyClientCredentials' is not defined" |},
                 h)) by reflexivity.
  repeat split; try assumption.
  - exact (events_nil _ _ _ I).
  - exact (events_nil _ _ _ M).
Qed.

(** The names the other functions of [main2] read are bound. *)
Example main2_bound_names :
  forallb (fun name => existsb (String.eqb name) (main2.module_globals ++ main2.builtins))
    ["os"; "spotipy"; "SpotifyOAuth"; "SimpleDirectoryReader"; "VectorStoreIndex";
     "ValueError"; "QueryEngineTool"; "ToolMetadata"; "FunctionTool"; "ReActAgent";
     "ChatMemoryBuffer"; "create_spotify_playlist"; "PlaylistGeneratorWithLlamaIndex"]
  = true.
Proof. reflexivity. Qed.

(** * Further properties of the scripts *)

(** ** Lines of text *)

Lemma split_one_line (s : string) :
  one_line s = true -> split newline s = [s].
Proof.
  induction s as [|c s IH]; [reflexivity|].
  cbn [one_line split]. intros [C L]%andb_prop.
  apply negb_true_iff in C. rewrite C, (IH L). reflexivity.
Qed.

Lemma split_line_break (s rest : string) :
  one_line s = true ->
  split newline (s ++ String newline rest)%string = s :: split newline rest.
Proof.
  induction s as [|c s IH]; intros L.
  - cbn [String.append split]. now rewrite Ascii.eqb_refl.
  - cbn [one_line] in L. apply andb_prop in L as [C L].
    apply negb_true_iff in C. cbn [String.append split]. rewrite C, (IH L).
    reflexivity.
Qed.

(** Joining lines with a line break and splitting at line breaks gives the
    lines back, when there is a line and none holds a line break. *)
Lemma split_join (l : list string) :
  l <> [] -> forallb one_line l = true ->
  split newline (join (String newline EmptyString) l) = l.
Proof.
  induction l as [|x l IH]; [congruence|]. intros _ F.
  cbn [forallb] in F. apply andb_prop in F as [X F].
  destruct l as [|y l]; [exact (split_one_line x X)|].
  unfold join in *. cbn [String.concat].
  change (String newline EmptyString ++ ?z)%string with (String newline z).
  rewrite (split_line_break x _ X). f_equal. apply IH; [discriminate|exact F].
Qed.

(** Formatting stops at the first track without an artist. *)
Lemma comprehension_format_track_artistless (l : list Track) (h : list Event) :
  forallb has_artist l = false ->
  comprehension format_track l h
  = (inl {| exn_class := IndexError; exn_msg := "list index out of range" |}, h).
Proof.
  induction l as [|t l IH]; [discriminate|].
  cbn [forallb comprehension]. unfold bind at 1. unfold format_track at 1.
  unfold has_artist at 1.
  destruct (track_artists t) as [|a ars]; [reflexivity|].
  cbn [andb getitem0]. intros F.
  unfold bind at 1. unfold ret at 1 2. unfold bind at 1. now rewrite (IH F).
Qed.

(** ** The tool and the agent pipeline *)

(** X1: The text of the tool read back: when the catalog answers tracks that
    name an artist and whose lines hold no line break, splitting the text
    the tool returns gives one line per track, in the order of the answer,
    each the name of the track and of its first artist. *)
Theorem song_recommendation_lines (w : World) (sp : Spotify) (query : string)
  (h : list Event) (res : SearchResults) (track : Track) (rest : list Track) :
  respond w _ (sp_search sp query "track" 5) h = inr res ->
  items res = track :: rest ->
  forallb has_artist (items res) = true ->
  forallb one_line (map entry (items res)) = true ->
  exists text,
    outcome (app3.song_recommendation_function w sp query) h = inr text
    /\ split newline text = map entry (items res)
    /\ events (app3.song_recommendation_function w sp query) h
       = [Ev (sp_search sp query "track" 5) (inr res)].
Proof.
  intros A I F L.
  pose proof (song_recommendation_function_run w sp query h) as R. cbv zeta in R.
  rewrite A in R. rewrite I in R at 1.
  rewrite (comprehension_format_track_entries _ [] F) in R. cbn [fst] in R.
  destruct (events_app _ _ _ _ R) as [-> ->].
  eexists. split; [reflexivity|]. split; [|reflexivity].
  apply split_join; [|exact L]. rewrite I. discriminate.
Qed.

Lemma song_recommendation_lines_witness :
  exists text,
    outcome (app3.song_recommendation_function duo_world
               (app3.oauth_client duo_world) "piano") [] = inr text
    /\ split newline text
       = ["Weightless by Marconi Union"; "Clair de Lune by Claude Debussy"].
Proof.
  destruct (song_recommendation_lines duo_world (app3.oauth_client duo_world)
              "piano" [] {| items := [weightless; clair_de_lune] |} weightless
              [clair_de_lune] eq_refl eq_refl eq_refl eq_refl)
    as (text & O & S & _).
  exists text. split; [exact O|exact S].
Defined.

(** X3: A track without an artist among those the search of the tool found:
    the tool raises the [IndexError] of [track['artists'][0]], line 106,
    after its one search, and returns no line, not even for the tracks
    before that one.  Nothing in the tool catches it, where
    [recommend_similar_songs] of [app.py] has its [except]. *)
Theorem song_recommendation_artistless (w : World) (sp : Spotify) (query : string)
  (h : list Event) (res : SearchResults) :
  respond w _ (sp_search sp query "track" 5) h = inr res ->
  forallb has_artist (items res) = false ->
  outcome (app3.song_recommendation_function w sp query) h
  = inl {| exn_class := IndexError; exn_msg := "list index out of range" |}
  /\ events (app3.song_recommendation_function w sp query) h
     = [Ev (sp_search sp query "track" 5) (inr res)].
Proof.
  intros A F.
  pose proof (song_recommendation_function_run w sp query h) as R. cbv zeta in R.
  rewrite A in R.
  destruct (items res) as [|track rest] eqn:I; [discriminate|].
  rewrite (comprehension_format_track_artistless _ [] F) in R. cbn [fst] in R.
  exact (events_app _ _ _ _ R).
Qed.

Lemma song_recommendation_artistless_witness :
  outcome (app3.song_recommendation_function anonymous_world
             (app3.oauth_client anonymous_world) "Weightless") []
  = inl {| exn_class := IndexError; exn_msg := "list index out of range" |}
  /\ events (app3.song_recommendation_function anonymous_world
               (app3.oauth_client anonymous_world) "Weightless") []
     = [Ev (sp_search (app3.oauth_client anonymous_world) "Weightless" "track" 5)
          (inr {| items := [weightless; anonymous] |})].
Proof.
  exact (song_recommendation_artistless anonymous_world
           (app3.oauth_client anonymous_world) "Weightless" []
           {| items := [weightless; anonymous] |} eq_refl eq_refl).
Defined.

(** ** The construction of the generator *)

(** X5: The construction of the generator of [app3] never returns.  Every
    run of [__init__] ends in an exception, and its calls are those that
    load the documents and build the index, the two models and the query
    engine, no other.  Once the query engine is built the exception is the
    [TypeError] of [QueryEngineTool(query_engine=..., name=...,
    description=...)], lines 91-95: the agent of lines 116-120 is never
    made. *)
Theorem init_never_returns (w : World) (data_path : string) (h : list Event) :
  (exists e,
     outcome (app3.__init__ w data_path) h = inl e
     /\ (existsb query_engine_built (events (app3.__init__ w data_path) h) = true ->
         e = {| exn_class := TypeError;
                exn_msg := "QueryEngineTool.__init__() got an unexpected keyword argument 'name'" |}))
  /\ forallb is_construction (events (app3.__init__ w data_path) h) = true
  /\ filter is_chat (events (app3.__init__ w data_path) h) = []
  /\ filter is_mutation (events (app3.__init__ w data_path) h) = [].
Proof.
  destruct (init_run w data_path h) as (e & evs & E & C & T).
  destruct (events_app _ _ _ _ E) as [-> ->].
  split; [exists e; split; [reflexivity|exact T]|].
  split; [exact C|]. exact (construction_only evs C).
Qed.

(** In [small_world] every library answers, and the construction ends in
    the [TypeError] after five calls. *)
Example init_small_world :
  outcome (app3.__init__ small_world "data/music_data") []
  = inl {| exn_class := TypeError;
           exn_msg := "QueryEngineTool.__init__() got an unexpected keyword argument 'name'" |}
  /\ map is_construction (events (app3.__init__ small_world "data/music_data") [])
     = [true; true; true; true; true]
  /\ existsb query_engine_built (events (app3.__init__ small_world "data/music_data") [])
     = true.
Proof. repeat split. Qed.



(** ** Failures of the materializer *)

(** A resolution loop that ends in an exception ends in the search that
    raised it; the searches before it returned. *)
Lemma for_each_search_song_raised (w : World) (sp : Spotify) (songs : list string) :
  forall (acc : list string) (h h' : list Event) (e : Exn),
  for_each songs (app3.search_song w sp) acc h = (inl e, h') ->
  exists S q,
    h' = h ++ S ++ [Ev (sp_search sp q "track" 1) (inl e)]
    /\ Forall (track_search sp) S
    /\ forallb returned S = true.
Proof.
  induction songs as [|song songs IH]; intros acc h h' e; [discriminate|].
  rewrite for_each_search_song_cons.
  destruct (respond w SearchResults (sp_search sp song "track" 1) h) as [e0|res].
  - intros [= <- <-]. exists [], song. repeat split. constructor.
  - intros E. destruct (IH _ _ _ _ E) as (S & q & -> & TS & F).
    exists (Ev (sp_search sp song "track" 1) (inr res) :: S), q.
    rewrite <- app_assoc. repeat split; [|exact F].
    constructor; [now exists song, (inr res)|exact TS].
Qed.

(** With the client built, an exception of [create_spotify_playlist] is the
    one of its last call. *)
Lemma create_spotify_playlist_raised (w : World) (user_id playlist_name : string)
  (song_list : list string) (h : list Event) (e : Exn) :
  let m := app3.create_spotify_playlist w user_id playlist_name song_list in
  outcome m h = inl e ->
  exists before last,
    events m h = before ++ [last]
    /\ raised last = Some e
    /\ forallb returned before = true
    /\ (forall pid, playlist_tracks pid (events m h) = [])
    /\ (before = [] /\ is_playlist_create last = true
        \/ exists pl S,
             before = Ev (sp_user_playlist_create (app3.oauth_client w) user_id
                            playlist_name false) (inr pl) :: S
             /\ Forall (track_search (app3.oauth_client w)) S
             /\ created_ids (events m h) = [id pl]).
Proof.
  cbv zeta.
  set (sp := app3.oauth_client w).
  set (c := sp_user_playlist_create sp user_id playlist_name false).
  assert (X : exists o evs,
            app3.create_spotify_playlist w user_id playlist_name song_list h
            = (o, h ++ evs)
            /\ (o = inl e ->
                exists before last,
                  evs = before ++ [last]
                  /\ raised last = Some e
                  /\ forallb returned before = true
                  /\ (forall pid, playlist_tracks pid evs = [])
                  /\ (before = [] /\ is_playlist_create last = true
                      \/ exists pl S,
                           before = Ev c (inr pl) :: S
                           /\ Forall (track_search sp) S
                           /\ created_ids evs = [id pl]))).
  { unfold app3.create_spotify_playlist. cbv zeta. fold sp. fold c.
    unfold bind at 1. rewrite call_eq.
    destruct (respond w PlaylistObj c h) as [e0|pl].
    { exists (inl e0), [Ev c (inl e0)]. split; [reflexivity|].
      intros [= ->]. exists [], (Ev c (inl e)). repeat split. left. now split. }
    unfold bind at 1.
    destruct (for_each song_list (app3.search_song w sp) [] (h ++ [Ev c (inr pl)]))
      as [[e0|uris] h'] eqn:L.
    { destruct (for_each_search_song_raised _ _ _ _ _ _ _ L) as (S & q & -> & TS & F).
      exists (inl e0), (Ev c (inr pl) :: S ++ [Ev (sp_search sp q "track" 1) (inl e0)]).
      split; [rewrite <- app_assoc; reflexivity|].
      intros [= ->].
      exists (Ev c (inr pl) :: S), (Ev (sp_search sp q "track" 1) (inl e)).
      split; [reflexivity|]. split; [reflexivity|]. split; [exact F|].
      split.
      - intros pid. cbn [playlist_tracks].
        rewrite playlist_tracks_app, (track_search_playlist_tracks _ _ _ TS).
        reflexivity.
      - right. exists pl, S. repeat split; [exact TS|].
        cbn [created_ids]. rewrite created_ids_app, (track_search_created _ _ TS).
        reflexivity. }
    destruct (for_each_search_song w sp song_list [] (h ++ [Ev c (inr pl)]))
      as (S & E1 & TS & E3).
    rewrite L in E1, E3. cbn [fst snd] in E1, E3. destruct E3 as (-> & _ & F).
    subst h'. cbn [app].
    destruct (resolved_uris S) as [|u us] eqn:RU.
    { exists (inr (app3.confirmation (id pl))), (Ev c (inr pl) :: S).
      split; [rewrite <- app_assoc; reflexivity|]. discriminate. }
    unfold bind at 1. rewrite call_eq.
    set (a := sp_playlist_add_items sp (id pl) (u :: us)).
    destruct (respond w unit a ((h ++ [Ev c (inr pl)]) ++ S)) as [e0|[]].
    - exists (inl e0), (Ev c (inr pl) :: S ++ [Ev a (inl e0)]).
      split; [rewrite <- !app_assoc; reflexivity|].
      intros [= ->]. exists (Ev c (inr pl) :: S), (Ev a (inl e)).
      split; [reflexivity|]. split; [reflexivity|]. split; [exact F|].
      split.
      + intros pid. cbn [playlist_tracks].
        rewrite playlist_tracks_app, (track_search_playlist_tracks _ _ _ TS).
        reflexivity.
      + right. exists pl, S. repeat split; [exact TS|].
        cbn [created_ids]. rewrite created_ids_app, (track_search_created _ _ TS).
        reflexivity.
    - exists (inr (app3.confirmation (id pl))), (Ev c (inr pl) :: S ++ [Ev a (inr tt)]).
      split; [rewrite <- !app_assoc; reflexivity|]. discriminate. }
  destruct X as (o & evs & E & P). intros O.
  destruct (events_app _ _ _ _ E) as [Eo Ee]. rewrite Ee. apply P. congruence.
Qed.

(** X7: When [create_spotify_playlist] raises, no track was added to any
    playlist, and one of two things happened.  Either a credential is
    missing: the construction of the client, lines 28-33, raised
    [SpotifyOauthError] and no call was made.  Or the exception is the one
    of the last call and every call before it returned; if that call is not
    the creation, the playlist had been created by then: it is left behind,
    created and without tracks. *)
Theorem create_spotify_playlist_failure (w : World) (user_id playlist_name : string)
  (song_list : list string) (h : list Event) (e : Exn) :
  let m := app3.create_spotify_playlist_entry w user_id playlist_name song_list in
  outcome m h = inl e ->
  (forall pid, playlist_tracks pid (events m h) = [])
  /\ (credentials_set w = false
      /\ exn_class e = SpotifyOauthError
      /\ events m h = []
      \/ credentials_set w = true
         /\ exists before last,
              events m h = before ++ [last]
              /\ raised last = Some e
              /\ forallb returned before = true
              /\ (before = [] /\ is_playlist_create last = true
                  \/ exists pl S,
                       before = Ev (sp_user_playlist_create (app3.oauth_client w)
                                      user_id playlist_name false) (inr pl) :: S
                       /\ Forall (track_search (app3.oauth_client w)) S
                       /\ created_ids (events m h) = [id pl])).
Proof.
  cbv zeta.
  pose proof (create_spotify_playlist_entry_run w user_id playlist_name song_list h)
    as R.
  destruct (credentials_set w).
  - unfold outcome, events. rewrite R. intros O.
    destruct (create_spotify_playlist_raised w user_id playlist_name song_list h e O)
      as (before & last & E & L & B & T & K).
    split; [exact T|]. right. split; [reflexivity|].
    exists before, last. repeat split; assumption.
  - destruct R as (e0 & R & C). rewrite (events_nil _ _ _ R).
    unfold outcome. rewrite R. intros [= <-].
    split; [reflexivity|]. left. repeat split. exact C.
Qed.

Lemma create_spotify_playlist_failure_witness :
  (exists before last,
     events (app3.create_spotify_playlist_entry
               (refusing (with_environ small_world spotify_env) "Nothing Here")
               "alice" "Focus" three_songs) [] = before ++ [last]
     /\ raised last = Some {| exn_class := SpotifyException; exn_msg := "rate limited" |}
     /\ created_ids (events (app3.create_spotify_playlist_entry
                               (refusing (with_environ small_world spotify_env)
                                  "Nothing Here")
                               "alice" "Focus" three_songs) []) = ["37i9dQZF1DX"])
  /\ events (app3.create_spotify_playlist_entry small_world "alice" "Focus"
               three_songs) [] = [].
Proof.
  split.
  - destruct (create_spotify_playlist_failure
                (refusing (with_environ small_world spotify_env) "Nothing Here")
                "alice" "Focus" three_songs []
                {| exn_class := SpotifyException; exn_msg := "rate limited" |} eq_refl)
      as (_ & [(C & _)|(_ & before & last & E & R & _)]); [discriminate C|].
    exists before, last. split; [exact E|]. split; [exact R|reflexivity].
  - destruct (create_spotify_playlist_failure small_world "alice" "Focus" three_songs
                []
                {| exn_class := SpotifyOauthError;
                   exn_msg := "No client_id. Pass it or set a SPOTIPY_CLIENT_ID environment variable." |}
                eq_refl)
      as (_ & [(_ & _ & E)|(C & _)]); [exact E|discriminate C].
Defined.





(** With credentials, three candidates cost five calls; without them the
    same request costs none. *)
Example create_spotify_playlist_calls_counted :
  length (events (app3.create_spotify_playlist_entry
                    (with_environ small_world spotify_env) "alice" "Focus"
                    three_songs) []) = 5%nat
  /\ length (events (app3.create_spotify_playlist_entry small_world "alice" "Focus"
                       three_songs) []) = 0%nat.
Proof. split; reflexivity. Qed.

(** ** The candidate sources of app.py, continued *)

(** X9: What [create_playlist] returns is never an empty list: it is the pair
    of line 52 or a list with a first title, so the test [if relevant_songs:]
    of [main] holds and [relevant_songs[0]] is defined.  An exception that
    leaves [create_playlist] is not of the [requests] family. *)
Theorem create_playlist_never_empty (w : World) (query : string) (h : list Event) :
  match outcome (app.create_playlist w query) h with
  | inr v =>
      truthy v = true
      /\ value_getitem0 v = ret (seed_of v)
      /\ match v with
         | PyTuple message songs => message = "No songs found." /\ songs = []
         | PyList songs => songs <> []
         end
  | inl e => is_RequestException e = false
  end.
Proof.
  unfold outcome, app.create_playlist, bind.
  rewrite (fetch_playlist_data_run w query h). cbv zeta.
  assert (T : forall (d : SerperDoc) (tr : list Event),
            match fst (match app.titles (app.get_organic d) with
                       | [] => ret (PyTuple "No songs found." [])
                       | _ :: _ => ret (PyList (app.titles (app.get_organic d)))
                       end tr) with
            | inr v =>
                truthy v = true
                /\ value_getitem0 v = ret (seed_of v)
                /\ match v with
                   | PyTuple message songs => message = "No songs found." /\ songs = []
                   | PyList songs => songs <> []
                   end
            | inl e => is_RequestException e = false
            end).
  { intros d tr. destruct (app.titles (app.get_organic d)); cbn.
    - repeat split.
    - repeat split. discriminate. }
  destruct (respond w Response (app.search_request w query) h) as [e|r].
  - destruct (is_RequestException e) eqn:Q; [apply (T {| organic := Some [] |})|].
    exact Q.
  - destruct ((400 <=? status_code r) && (status_code r <? 600));
      [apply (T {| organic := Some [] |})|].
    destruct (json r) as [e|d]; [|apply T].
    destruct (is_RequestException e) eqn:Q; [apply (T {| organic := Some [] |})|].
    exact Q.
Qed.

(** X10: [fetch_playlist_data] makes one request and never a second one.
    Either nothing follows it, and then the result is the decoded document
    of a response without an error status, or an exception outside the
    [requests] family; or the warning follows it, and the result is the
    document with the empty [organic] list. *)
Theorem fetch_playlist_data_single_request (w : World) (query : string)
  (h : list Event) :
  let m := app.fetch_playlist_data w query in
  let c := app.search_request w query in
  let a := respond w _ c h in
  (events m h = [Ev c a]
   /\ match outcome m h with
      | inl e => is_RequestException e = false
      | inr d =>
          exists r, a = inr r /\ json r = inr d
                    /\ (400 <=? status_code r) && (status_code r <? 600) = false
      end)
  \/ (exists msg,
        events m h
        = [Ev c a;
           Ev (st_error ("Error fetching data from Serper: " ++ msg)%string) (inr tt)]
        /\ outcome m h = inr {| organic := Some [] |}).
Proof.
  cbv zeta. set (c := app.search_request w query).
  pose proof (fetch_playlist_data_run w query h) as R. cbv zeta in R. fold c in R.
  destruct (respond w Response c h) as [e|r].
  - destruct (is_RequestException e) eqn:Q.
    + right. exists (exn_msg e). rewrite <- app_assoc in R.
      destruct (events_app _ _ _ _ R) as [-> ->]. now split.
    + left. destruct (events_app _ _ _ _ R) as [-> ->]. now split.
  - destruct ((400 <=? status_code r) && (status_code r <? 600)) eqn:St.
    + right. eexists. rewrite <- app_assoc in R.
      destruct (events_app _ _ _ _ R) as [-> ->]. split; reflexivity.
    + destruct (json r) as [e|d] eqn:J.
      * destruct (is_RequestException e) eqn:Q.
        -- right. exists (exn_msg e). rewrite <- app_assoc in R.
           destruct (events_app _ _ _ _ R) as [-> ->]. now split.
        -- left. destruct (events_app _ _ _ _ R) as [-> ->]. now split.
      * left. destruct (events_app _ _ _ _ R) as [-> ->].
        split; [reflexivity|]. now exists r.
Qed.

(** X11: [recommend_similar_songs] never raises, and its runs are of three
    kinds.  The seed did not resolve: one search, the entry of line 63.  The
    seed resolved and the recommender answered tracks that all name an
    artist: the recommender was asked once, with the identifier of the top
    hit as its only seed and the requested number as limit, and there is
    one entry per track it answered, in order.  Anything else: the entry of
    line 73, after the message of line 72 as the last call. *)
Theorem recommend_similar_songs_cases (w : World) (song_title : string)
  (num_recommendations : Z) (h : list Event) :
  let m := app.recommend_similar_songs w song_title num_recommendations in
  let c1 := sp_search (app.spotify w) song_title "track" 1 in
  exists similar_songs,
    outcome m h = inr similar_songs
    /\ ((exists res,
           events m h = [Ev c1 (inr res)] /\ items res = []
           /\ similar_songs = ["No similar songs found."])
        \/ (exists res track rest recs,
              events m h
              = [Ev c1 (inr res);
                 Ev (sp_recommendations (app.spotify w) [track_id track]
                       num_recommendations) (inr recs)]
              /\ items res = track :: rest
              /\ forallb has_artist (rec_tracks recs) = true
              /\ similar_songs = map entry (rec_tracks recs))
        \/ (exists before msg,
              events m h
              = before ++ [Ev (st_error ("Error getting recommendations: " ++ msg)%string)
                             (inr tt)]
              /\ similar_songs = ["Error fetching recommendations."])).
Proof.
  cbv zeta.
  pose proof (recommend_similar_songs_run w song_title num_recommendations h) as R.
  cbv zeta in R. set (c1 := sp_search (app.spotify w) song_title "track" 1) in *.
  destruct (respond w SearchResults c1 h) as [e|res].
  { assert (R' : app.recommend_similar_songs w song_title num_recommendations h
                 = (inr ["Error fetching recommendations."],
                    h ++ [Ev c1 (inl e)]
                      ++ [Ev (st_error ("Error getting recommendations: "
                                          ++ exn_msg e)%string) (inr tt)])).
    { rewrite R. now rewrite <- app_assoc. }
    destruct (events_app _ _ _ _ R') as [-> ->].
    eexists. split; [reflexivity|]. right. right. now exists [Ev c1 (inl e)], (exn_msg e). }
  destruct (items res) as [|track rest] eqn:I.
  { destruct (events_app _ _ _ _ R) as [-> ->].
    eexists. split; [reflexivity|]. left. now exists res. }
  set (c2 := sp_recommendations (app.spotify w) [track_id track] num_recommendations)
    in *.
  destruct (respond w Recommendations c2 (h ++ [Ev c1 (inr res)])) as [e|recs].
  { assert (R' : app.recommend_similar_songs w song_title num_recommendations h
                 = (inr ["Error fetching recommendations."],
                    h ++ [Ev c1 (inr res); Ev c2 (inl e)]
                      ++ [Ev (st_error ("Error getting recommendations: "
                                          ++ exn_msg e)%string) (inr tt)])).
    { rewrite R. now rewrite <- app_assoc. }
    destruct (events_app _ _ _ _ R') as [-> ->].
    eexists. split; [reflexivity|]. right. right.
    now exists [Ev c1 (inr res); Ev c2 (inl e)], (exn_msg e). }
  destruct (forallb has_artist (rec_tracks recs)) eqn:F.
  - rewrite (comprehension_format_track_entries _ [] F) in R. cbn [fst] in R.
    destruct (events_app _ _ _ _ R) as [-> ->].
    eexists. split; [reflexivity|]. right. left. now exists res, track, rest, recs.
  - rewrite (comprehension_format_track_artistless _ [] F) in R. cbn [fst] in R.
    assert (R' : app.recommend_similar_songs w song_title num_recommendations h
                 = (inr ["Error fetching recommendations."],
                    h ++ [Ev c1 (inr res); Ev c2 (inr recs)]
                      ++ [Ev (st_error ("Error getting recommendations: "
                                          ++ "list index out of range")%string)
                            (inr tt)])).
    { rewrite R. now rewrite <- app_assoc. }
    destruct (events_app _ _ _ _ R') as [-> ->].
    eexists. split; [reflexivity|]. right. right.
    now exists [Ev c1 (inr res); Ev c2 (inr recs)], "list index out of range".
Qed.

(** X12: One recommended track without an artist costs the whole answer: the
    [IndexError] of its line is caught with the rest, and the result is the
    single entry of line 73 after the message "list index out of range". *)
Theorem recommend_similar_songs_artistless (w : World) (song_title : string)
  (num_recommendations : Z) (h : list Event) (res : SearchResults) (track : Track)
  (rest : list Track) (recs : Recommendations) :
  let m := app.recommend_similar_songs w song_title num_recommendations in
  let c1 := sp_search (app.spotify w) song_title "track" 1 in
  let c2 := sp_recommendations (app.spotify w) [track_id track] num_recommendations in
  respond w _ c1 h = inr res ->
  items res = track :: rest ->
  respond w _ c2 (h ++ [Ev c1 (inr res)]) = inr recs ->
  forallb has_artist (rec_tracks recs) = false ->
  outcome m h = inr ["Error fetching recommendations."]
  /\ events m h
     = [Ev c1 (inr res); Ev c2 (inr recs);
        Ev (st_error "Error getting recommendations: list index out of range")
          (inr tt)].
Proof.
  cbv zeta. intros A1 I A2 F.
  pose proof (recommend_similar_songs_run w song_title num_recommendations h) as R.
  cbv zeta in R. rewrite A1, I, A2 in R.
  rewrite (comprehension_format_track_artistless _ [] F) in R. cbn [fst] in R.
  rewrite <- app_assoc in R. exact (events_app _ _ _ _ R).
Qed.

Lemma recommend_similar_songs_artistless_witness :
  outcome (app.recommend_similar_songs anonymous_world "Weightless" 5) []
  = inr ["Error fetching recommendations."].
Proof.
  exact (proj1 (recommend_similar_songs_artistless anonymous_world "Weightless" 5 []
                  {| items := [weightless; anonymous] |} weightless [anonymous]
                  {| rec_tracks := [weightless; anonymous] |}
                  eq_refl eq_refl eq_refl eq_refl)).
Defined.

(** ** The page of app3.py *)

Lemma page_run {A} (m : Page A) (p p' : list Element) (h evs : list Event)
  (o : Exn + A) :
  m p h = (o, p', h ++ evs) ->
  page_outcome m p h = o /\ page_elements m p h = p' /\ page_events m p h = evs.
Proof.
  intros E. unfold page_outcome, page_elements, page_events. rewrite E.
  cbn [fst snd]. repeat split.
  rewrite skipn_app, skipn_all, Nat.sub_diag. reflexivity.
Qed.

(** The runs of [main] of [app3.py]. *)
Lemma app3_main_run (w : World) (ui : Widgets) (p : list Element) (h : list Event) :
  let title := st_title "ChordCloud's Personalized Playlist Generator" in
  app3_page.main w ui p h =
  if button ui then
    if negb (nonempty (text_area ui)) || negb (nonempty (text_input ui)) then
      (inr tt, p ++ [title],
       h ++ [Ev (st_error "Please enter both a Spotify user ID and a playlist query.")
               (inr tt)])
    else
      match app3.__init__ w "data/music_data" h with
      | (inl e, h1) => (inl e, p ++ [title], h1)
      | (inr self, h1) =>
          match app3.generate_playlist w self (text_area ui) (text_input ui) h1 with
          | (inr playlist_url, h2) =>
              (inr tt,
               p ++ [title; st_success "Your personalized playlist has been generated!";
                     st_markdown playlist_url],
               h2)
          | (inl e, h2) =>
              (inr tt, p ++ [title],
               h2 ++ [Ev (st_error ("Error: " ++ exn_msg e)%string) (inr tt)])
          end
      end
  else (inr tt, p ++ [title], h).
Proof.
  cbv zeta. unfold app3_page.main. cbv zeta. unfold page_bind at 1.
  unfold render at 1.
  destruct (button ui); [|reflexivity].
  destruct (negb (nonempty (text_area ui)) || negb (nonempty (text_input ui)));
    [reflexivity|].
  unfold page_bind at 1. unfold lift at 1.
  destruct (app3.__init__ w "data/music_data" h) as [[e|self] h1]; [reflexivity|].
  unfold page_try_except, page_bind, lift, render.
  destruct (app3.generate_playlist w self (text_area ui) (text_input ui) h1)
    as [[e|playlist_url] h2]; [reflexivity|].
  rewrite <- !app_assoc. reflexivity.
Qed.

(** X13: [main] of [app3.py] asks nothing of the outside unless the button is
    pressed and both fields are filled: no documents are loaded, the agent
    and the catalog are not called; the page shows the title, and the
    message of line 153 when the button was pressed. *)
Theorem app3_main_requires_input (w : World) (ui : Widgets) (p : list Element)
  (h : list Event) :
  button ui && nonempty (text_area ui) && nonempty (text_input ui) = false ->
  page_outcome (app3_page.main w ui) p h = inr tt
  /\ page_elements (app3_page.main w ui) p h
     = p ++ [st_title "ChordCloud's Personalized Playlist Generator"]
  /\ page_events (app3_page.main w ui) p h
     = if button ui
       then [Ev (st_error "Please enter both a Spotify user ID and a playlist query.")
               (inr tt)]
       else [].
Proof.
  intros G. apply page_run. rewrite app3_main_run. cbv zeta.
  destruct (button ui); [|now rewrite app_nil_r].
  destruct (nonempty (text_area ui)), (nonempty (text_input ui));
    try discriminate G; reflexivity.
Qed.

Lemma app3_main_requires_input_witness :
  page_events (app3_page.main small_world
                 {| text_input := ""; text_area := "Weightless"; button := true;
                    slider := 5 |}) [] []
  = [Ev (st_error "Please enter both a Spotify user ID and a playlist query.")
       (inr tt)].
Proof.
  exact (proj2 (proj2 (app3_main_requires_input small_world
                         {| text_input := ""; text_area := "Weightless";
                            button := true; slider := 5 |} [] [] eq_refl))).
Defined.

(** X14: The only exceptions that leave [main] of [app3.py] are those of the
    construction of the generator, which stands outside the [try]: when
    [main] raises, the button was pressed, both fields were filled, and
    [__init__] raised that exception after the same calls. *)
Theorem app3_main_escapes (w : World) (ui : Widgets) (p : list Element)
  (h : list Event) (e : Exn) :
  page_outcome (app3_page.main w ui) p h = inl e ->
  button ui = true
  /\ nonempty (text_area ui) = true
  /\ nonempty (text_input ui) = true
  /\ app3.__init__ w "data/music_data" h
     = (inl e, snd (app3_page.main w ui p h))
  /\ page_elements (app3_page.main w ui) p h
     = p ++ [st_title "ChordCloud's Personalized Playlist Generator"].
Proof.
  unfold page_outcome, page_elements. rewrite app3_main_run. cbv zeta.
  destruct (button ui); [|discriminate].
  destruct (nonempty (text_area ui)), (nonempty (text_input ui));
    cbn [negb orb]; try discriminate.
  destruct (app3.__init__ w "data/music_data" h) as [[e0|self] h1].
  - cbn [fst snd]. intros [= ->]. repeat split.
  - destruct (app3.generate_playlist w self (text_area ui) (text_input ui) h1)
      as [[e0|url] h2]; discriminate.
Qed.

Lemma app3_main_escapes_witness :
  app3.__init__ (without_documents small_world) "data/music_data" []
  = (inl {| exn_class := ValueError;
            exn_msg := "No documents found in the specified path." |},
     snd (app3_page.main (without_documents small_world) alice [] [])).
Proof.
  exact (proj1 (proj2 (proj2 (proj2
           (app3_main_escapes (without_documents small_world) alice [] []
              {| exn_class := ValueError;
                 exn_msg := "No documents found in the specified path." |}
              eq_refl))))).
Defined.

(** X15: [main] of [app3.py] never gets to a playlist.  With the button
    pressed and both fields filled it raises the exception in which the
    construction of the generator ends, line 161, before the [try]: the
    page shows the title and nothing after it, neither the success line nor
    the confirmation, and the calls are those of the construction, so the
    agent is not asked and no playlist is created or filled. *)
Theorem app3_main_never_succeeds (w : World) (ui : Widgets) (p : list Element)
  (h : list Event) :
  button ui && nonempty (text_area ui) && nonempty (text_input ui) = true ->
  (exists e,
     page_outcome (app3_page.main w ui) p h = inl e
     /\ outcome (app3.__init__ w "data/music_data") h = inl e)
  /\ page_elements (app3_page.main w ui) p h
     = p ++ [st_title "ChordCloud's Personalized Playlist Generator"]
  /\ page_events (app3_page.main w ui) p h
     = events (app3.__init__ w "data/music_data") h
  /\ forallb is_construction (page_events (app3_page.main w ui) p h) = true
  /\ filter is_chat (page_events (app3_page.main w ui) p h) = []
  /\ filter is_mutation (page_events (app3_page.main w ui) p h) = [].
Proof.
  intros G.
  destruct (init_run w "data/music_data" h) as (e & evs & E & C & _).
  assert (M : app3_page.main w ui p h
              = (inl e, p ++ [st_title "ChordCloud's Personalized Playlist Generator"],
                 h ++ evs)).
  { rewrite app3_main_run. cbv zeta.
    destruct (button ui); [|discriminate G].
    destruct (nonempty (text_area ui)); [|discriminate G].
    destruct (nonempty (text_input ui)); [|discriminate G].
    cbn [negb orb]. now rewrite E. }
  destruct (page_run _ _ _ _ _ _ M) as (-> & -> & ->).
  destruct (events_app _ _ _ _ E) as [-> ->].
  split; [exists e; split; reflexivity|]. split; [reflexivity|].
  split; [reflexivity|]. split; [exact C|]. exact (construction_only evs C).
Qed.

Lemma app3_main_never_succeeds_witness :
  page_outcome (app3_page.main small_world alice) [] []
  = inl {| exn_class := TypeError;
           exn_msg := "QueryEngineTool.__init__() got an unexpected keyword argument 'name'" |}
  /\ page_elements (app3_page.main small_world alice) [] []
     = [st_title "ChordCloud's Personalized Playlist Generator"]
  /\ filter is_mutation (page_events (app3_page.main small_world alice) [] []) = [].
Proof.
  destruct (app3_main_never_succeeds small_world alice [] [] eq_refl)
    as ((e & O & I) & P & _ & _ & _ & M).
  split; [|split; [exact P|exact M]].
  assert (X : inl e
              = inl {| exn_class := TypeError;
                       exn_msg := "QueryEngineTool.__init__() got an unexpected keyword argument 'name'" |}
              :> Exn + PlaylistGeneratorWithLlamaIndex)
    by exact (eq_trans (eq_sym I) eq_refl).
  injection X as ->. exact O.
Defined.

(** ** The page of app.py *)

Lemma write_enumerated_run (similar_songs : list string) :
  forall (i : nat) (p : list Element) (h : list Event),
  app_page.write_enumerated i similar_songs p h
  = (inr tt,
     p ++ map (fun item => st_write (str_nat (fst item) ++ ". " ++ snd item)%string)
            (combine (seq i (length similar_songs)) similar_songs),
     h).
Proof.
  induction similar_songs as [|song rest IH]; intros i p h.
  - cbn. now rewrite app_nil_r.
  - cbn [app_page.write_enumerated]. unfold page_bind, render.
    rewrite IH. cbn [length seq combine map fst snd]. now rewrite <- app_assoc.
Qed.

(** The trace of [create_playlist]: no playlist is touched; a value it
    returns passes the test of [main] and has a first item; an exception it
    lets through is not of the [requests] family. *)
Lemma create_playlist_trace (w : World) (query : string) (h : list Event) :
  exists o evs,
    app.create_playlist w query h = (o, h ++ evs)
    /\ filter is_mutation evs = []
    /\ (forall v, o = inr v -> truthy v = true /\ value_getitem0 v = ret (seed_of v))
    /\ (forall e, o = inl e -> is_RequestException e = false).
Proof.
  unfold app.create_playlist, bind.
  rewrite (fetch_playlist_data_run w query h). cbv zeta.
  set (c := app.search_request w query).
  assert (T : forall (d : SerperDoc) (evs : list Event),
            filter is_mutation evs = [] ->
            exists o evs',
              match app.titles (app.get_organic d) with
              | [] => ret (PyTuple "No songs found." [])
              | _ :: _ => ret (PyList (app.titles (app.get_organic d)))
              end (h ++ evs) = (o, h ++ evs')
              /\ filter is_mutation evs' = []
              /\ (forall v, o = inr v ->
                  truthy v = true /\ value_getitem0 v = ret (seed_of v))
              /\ (forall e, o = inl e -> is_RequestException e = false)).
  { intros d evs M. destruct (app.titles (app.get_organic d)) as [|t ts];
      do 2 eexists; (split; [reflexivity|]); (split; [exact M|]);
      (split; [intros v [= <-]; now split|discriminate]). }
  destruct (respond w Response c h) as [e|r].
  - destruct (is_RequestException e) eqn:Q.
    + rewrite <- app_assoc. apply T. reflexivity.
    + do 2 eexists. split; [reflexivity|]. split; [reflexivity|].
      split; [discriminate|]. now intros e' [= <-].
  - destruct ((400 <=? status_code r) && (status_code r <? 600)).
    + rewrite <- app_assoc. apply T. reflexivity.
    + destruct (json r) as [e|d]; [|apply T; reflexivity].
      destruct (is_RequestException e) eqn:Q.
      * rewrite <- app_assoc. apply T. reflexivity.
      * do 2 eexists. split; [reflexivity|]. split; [reflexivity|].
        split; [discriminate|]. now intros e' [= <-].
Qed.

(** The trace of [recommend_similar_songs]: it returns, and touches no
    playlist. *)
Lemma recommend_similar_songs_trace (w : World) (song_title : string)
  (num_recommendations : Z) (h : list Event) :
  exists similar_songs evs,
    app.recommend_similar_songs w song_title num_recommendations h
    = (inr similar_songs, h ++ evs)
    /\ filter is_mutation evs = [].
Proof.
  rewrite (recommend_similar_songs_run w song_title num_recommendations h). cbv zeta.
  destruct (respond w SearchResults _ h) as [e|res].
  { do 2 eexists. split; [rewrite <- app_assoc; reflexivity|reflexivity]. }
  destruct (items res) as [|track rest]; [do 2 eexists; split; reflexivity|].
  destruct (respond w Recommendations _ _) as [e|recs].
  { do 2 eexists. split; [rewrite <- app_assoc; reflexivity|reflexivity]. }
  destruct (fst (comprehension format_track (rec_tracks recs) []));
    do 2 eexists; (split; [try rewrite <- app_assoc; reflexivity|reflexivity]).
Qed.

(** The runs of [main] of [app.py]. *)
Lemma app_main_run (w : World) (ui : Widgets) (p : list Element) (h : list Event) :
  let title := st_title "ChordCloud's Personalized Playlist Recommender" in
  app_page.main w ui p h =
  if nonempty (text_area ui) then
    match app.create_playlist w (text_area ui) h with
    | (inl e, h1) => (inl e, p ++ [title], h1)
    | (inr v, h1) =>
        match app.recommend_similar_songs w (seed_of v) (slider ui) h1 with
        | (inr similar_songs, h2) =>
            (inr tt,
             p ++ [title; st_subheader "Recommended Songs:"] ++ numbered similar_songs,
             h2)
        | (inl e, h2) => (inl e, p ++ [title], h2)
        end
    end
  else (inr tt, p ++ [title], h).
Proof.
  cbv zeta. unfold app_page.main. cbv zeta. unfold page_bind at 1. unfold render at 1.
  destruct (nonempty (text_area ui)); [|reflexivity].
  unfold page_bind at 1. unfold lift at 1.
  destruct (create_playlist_trace w (text_area ui) h) as (o & evs & E & _ & V & _).
  rewrite E. destruct o as [e|v]; [reflexivity|].
  destruct (V v eq_refl) as [T G]. rewrite T.
  unfold page_bind at 1. unfold lift at 1. rewrite G. unfold ret at 1.
  unfold page_bind at 1. unfold lift at 1.
  destruct (app.recommend_similar_songs w (seed_of v) (slider ui) (h ++ evs))
    as [[e|similar_songs] h2]; [reflexivity|].
  unfold page_bind at 1. unfold render at 1.
  unfold page_bind at 1. rewrite write_enumerated_run.
  unfold page_ret, numbered. rewrite <- !app_assoc. reflexivity.
Qed.

(** X16: The test [if relevant_songs:] of [main] of [app.py] never turns a
    request away: for a query that is not empty, once [create_playlist]
    returned, [recommend_similar_songs] is run on the first item of what it
    returned, with the number of the slider, and the page shows the title,
    the heading and the entries numbered from 1. *)
Theorem app_main_always_recommends (w : World) (ui : Widgets) (p : list Element)
  (h h1 : list Event) (v : CreatePlaylistValue) :
  nonempty (text_area ui) = true ->
  app.create_playlist w (text_area ui) h = (inr v, h1) ->
  exists similar_songs h2,
    app.recommend_similar_songs w (seed_of v) (slider ui) h1 = (inr similar_songs, h2)
    /\ app_page.main w ui p h
       = (inr tt,
          p ++ [st_title "ChordCloud's Personalized Playlist Recommender";
                st_subheader "Recommended Songs:"] ++ numbered similar_songs,
          h2).
Proof.
  intros N C. rewrite app_main_run. cbv zeta. rewrite N, C.
  destruct (recommend_similar_songs_trace w (seed_of v) (slider ui) h1)
    as (similar_songs & evs & R & _).
  rewrite R. now exists similar_songs, (h1 ++ evs).
Qed.

Lemma app_main_always_recommends_witness :
  exists similar_songs h2,
    app.recommend_similar_songs generous_world "Weightless" 5
      [Ev (app.search_request generous_world "Weightless") (s_http small_script)]
    = (inr similar_songs, h2)
    /\ app_page.main generous_world alice [] []
       = (inr tt,
          [st_title "ChordCloud's Personalized Playlist Recommender";
           st_subheader "Recommended Songs:"] ++ numbered similar_songs,
          h2).
Proof.
  exact (app_main_always_recommends generous_world alice [] []
           [Ev (app.search_request generous_world "Weightless") (s_http small_script)]
           (PyList ["Weightless"; "Clair de Lune"]) eq_refl eq_refl).
Defined.

(** The page [main] of [app.py] shows when the recommender knows two
    tracks. *)
Example app_main_page :
  page_elements (app_page.main generous_world alice) [] []
  = [st_title "ChordCloud's Personalized Playlist Recommender";
     st_subheader "Recommended Songs:";
     st_write "1. Weightless by Marconi Union";
     st_write "2. Weightless by Marconi Union"].
Proof. reflexivity. Qed.

(** The seed search of [recommend_similar_songs] is its first call. *)
Lemma recommend_similar_songs_starts (w : World) (song_title : string)
  (num_recommendations : Z) (h : list Event) :
  exists o rest,
    app.recommend_similar_songs w song_title num_recommendations h
    = (o, h ++ Ev (sp_search (app.spotify w) song_title "track" 1)
                 (respond w _ (sp_search (app.spotify w) song_title "track" 1) h)
            :: rest).
Proof.
  rewrite (recommend_similar_songs_run w song_title num_recommendations h). cbv zeta.
  destruct (respond w SearchResults _ h) as [e|res].
  { do 2 eexists. rewrite <- app_assoc. reflexivity. }
  destruct (items res) as [|track rest]; [do 2 eexists; reflexivity|].
  destruct (respond w Recommendations _ _) as [e|recs].
  { do 2 eexists. rewrite <- app_assoc. reflexivity. }
  destruct (fst (comprehension format_track (rec_tracks recs) []));
    do 2 eexists; [rewrite <- app_assoc|]; reflexivity.
Qed.

(** X17: After a keyword search that failed with a transport or HTTP error,
    [main] of [app.py] goes on all the same: its next call after the
    warning is the catalog search for a track named "No songs found.", the
    message of [create_playlist] taken as the seed title. *)
Theorem app_main_seed_after_error (w : World) (ui : Widgets) (p : list Element)
  (h : list Event) :
  let c := app.search_request w (text_area ui) in
  nonempty (text_area ui) = true ->
  transport_or_http_error (respond w _ c h) = true ->
  exists msg a rest,
    page_events (app_page.main w ui) p h
    = Ev c (respond w _ c h)
        :: Ev (st_error ("Error fetching data from Serper: " ++ msg)%string) (inr tt)
        :: Ev (sp_search (app.spotify w) "No songs found." "track" 1) a
        :: rest.
Proof.
  cbv zeta. intros N T. set (c := app.search_request w (text_area ui)) in *.
  assert (C : exists msg,
            app.create_playlist w (text_area ui) h
            = (inr (PyTuple "No songs found." []),
               h ++ [Ev c (respond w _ c h);
                     Ev (st_error ("Error fetching data from Serper: " ++ msg)%string)
                       (inr tt)])).
  { unfold app.create_playlist, bind.
    rewrite (fetch_playlist_data_run w (text_area ui) h). cbv zeta. fold c.
    destruct (respond w Response c h) as [e|r]; cbn [transport_or_http_error] in T.
    - exists (exn_msg e). rewrite T, <- app_assoc. reflexivity.
    - rewrite T. eexists. rewrite <- app_assoc. reflexivity. }
  destruct C as [msg C].
  pose proof (app_main_run w ui p h) as R. cbv zeta in R. rewrite N, C in R.
  cbn [seed_of] in R.
  destruct (recommend_similar_songs_starts w "No songs found." (slider ui)
              (h ++ [Ev c (respond w _ c h);
                     Ev (st_error ("Error fetching data from Serper: " ++ msg)%string)
                       (inr tt)])) as (o & rest & S).
  rewrite S in R. rewrite <- app_assoc in R. cbn [app] in R.
  exists msg. eexists. exists rest.
  destruct o as [e|l]; exact (proj2 (proj2 (page_run _ _ _ _ _ _ R))).
Qed.

Lemma app_main_seed_after_error_witness :
  exists msg a rest,
    page_events (app_page.main silent_world alice) [] []
    = Ev (app.search_request silent_world "Weightless") (s_http silent_script)
        :: Ev (st_error ("Error fetching data from Serper: " ++ msg)%string) (inr tt)
        :: Ev (sp_search (app.spotify silent_world) "No songs found." "track" 1) a
        :: rest.
Proof.
  exact (app_main_seed_after_error silent_world alice [] [] eq_refl eq_refl).
Defined.

(** X18: [main] of [app.py] only reads: none of its calls creates a playlist or
    adds to one, whatever the world answers; the user-delegated client it
    builds at the end is never called.  When it raises, the exception came
    out of the keyword search, is not of the [requests] family, and the page
    shows the title alone. *)
Theorem app_main_only_reads (w : World) (ui : Widgets) (p : list Element)
  (h : list Event) :
  filter is_mutation (page_events (app_page.main w ui) p h) = []
  /\ match page_outcome (app_page.main w ui) p h with
     | inl e =>
         is_RequestException e = false
         /\ outcome (app.create_playlist w (text_area ui)) h = inl e
         /\ page_elements (app_page.main w ui) p h
            = p ++ [st_title "ChordCloud's Personalized Playlist Recommender"]
     | inr _ => True
     end.
Proof.
  pose proof (app_main_run w ui p h) as R. cbv zeta in R.
  destruct (nonempty (text_area ui)).
  2:{ rewrite <- (app_nil_r h) in R at 2.
      destruct (page_run _ _ _ _ _ _ R) as (-> & _ & ->). now split. }
  destruct (create_playlist_trace w (text_area ui) h) as (o & evs & E & M & _ & X).
  destruct (events_app _ _ _ _ E) as [O _]. rewrite O. rewrite E in R.
  destruct o as [e|v].
  { destruct (page_run _ _ _ _ _ _ R) as (-> & -> & ->).
    split; [exact M|]. split; [exact (X e eq_refl)|]. now split. }
  destruct (recommend_similar_songs_trace w (seed_of v) (slider ui) (h ++ evs))
    as (l & evs' & R' & M').
  rewrite R' in R. rewrite <- app_assoc in R.
  destruct (page_run _ _ _ _ _ _ R) as (-> & _ & ->).
  split; [|exact I]. rewrite filter_app, M, M'. reflexivity.
Qed.

(** X19: The function [generate_playlist] that [app.py] carries at module level
    cannot return: for any object passed as [self] it ends in an exception,
    at the latest the [NameError] for [create_spotify_playlist], which the
    module does not define.  On an object whose agent shows the two tools
    of [app3] in a [tools] attribute, it calls the agent and the catalog
    search of the tool and touches no playlist. *)
Theorem app_generate_playlist_raises (w : World) (user_query user_id : string)
  (h : list Event) :
  (forall self, exists e,
      outcome (app_page.generate_playlist w self user_query user_id) h = inl e)
  /\ (forall data_path index,
        filter is_mutation
          (events (app_page.generate_playlist w (generator w data_path index)
                     user_query user_id) h) = [])
  /\ (forall data_path index resp,
        respond w _ (agent_chat user_query) h = inr resp ->
        respond w _ (sp_search (app3.oauth_client w) (response resp) "track" 5)
          (h ++ [Ev (agent_chat user_query) (inr resp)]) = inr {| items := [] |} ->
        outcome (app_page.generate_playlist w (generator w data_path index)
                   user_query user_id) h
        = inl {| exn_class := NameError;
                 exn_msg := "name 'create_spotify_playlist' is not defined" |}).
Proof.
  split; [|split].
  - intros self. unfold outcome, app_page.generate_playlist.
    unfold bind at 1. rewrite call_eq.
    destruct (respond w AgentChatResponse (agent_chat user_query) h) as [e|resp];
      [now exists e|].
    unfold bind at 1.
    destruct (agent_tools (agent self) _) as [[e|tools] h0]; [now exists e|].
    unfold bind at 1.
    destruct (tools_getitem tools 1 h0) as [[e|tool] h1]; [now exists e|].
    unfold bind at 1.
    destruct (tool_fn tool h1) as [[e|fn] h2]; [now exists e|].
    unfold bind at 1.
    destruct (fn (response resp) h2) as [[e|playlist_songs] h3]; [now exists e|].
    eexists. reflexivity.
  - intros data_path index.
    assert (X : exists o evs,
              app_page.generate_playlist w (generator w data_path index) user_query
                user_id h = (o, h ++ evs)
              /\ filter is_mutation evs = []).
    { unfold app_page.generate_playlist. unfold bind at 1. rewrite call_eq.
      destruct (respond w AgentChatResponse (agent_chat user_query) h) as [e|resp].
      { do 2 eexists. split; reflexivity. }
      cbn [generator agent agent_tools]. unfold bind at 1. unfold ret at 1.
      cbn [two_tools tools_getitem nth_error].
      unfold bind at 1. unfold ret at 1. cbn [tool_fn].
      unfold bind at 1. unfold ret at 1. unfold bind at 1.
      rewrite song_recommendation_function_run. cbv zeta.
      destruct (respond w SearchResults _ _) as [e|res].
      { do 2 eexists. split; [rewrite <- app_assoc; reflexivity|reflexivity]. }
      destruct (items res) as [|track rest].
      { do 2 eexists. split; [rewrite <- app_assoc; reflexivity|reflexivity]. }
      destruct (fst (comprehension format_track (track :: rest) []));
        do 2 eexists; (split; [rewrite <- app_assoc; reflexivity|reflexivity]). }
    destruct X as (o & evs & E & M). now destruct (events_app _ _ _ _ E) as [_ ->].
  - intros data_path index resp A0 A1.
    unfold outcome, app_page.generate_playlist. unfold bind at 1.
    rewrite call_eq, A0.
    cbn [generator agent agent_tools]. unfold bind at 1. unfold ret at 1.
    cbn [two_tools tools_getitem nth_error].
    unfold bind at 1. unfold ret at 1. cbn [tool_fn].
    unfold bind at 1. unfold ret at 1. unfold bind at 1.
    rewrite song_recommendation_function_run. cbv zeta. rewrite A1. reflexivity.
Qed.

Lemma app_generate_playlist_raises_witness :
  outcome (app_page.generate_playlist silent_world
             (generator silent_world "data/music_data" {| index_docs := [] |})
             "Relaxing music for studying" "alice") []
  = inl {| exn_class := NameError;
           exn_msg := "name 'create_spotify_playlist' is not defined" |}.
Proof.
  exact (proj2 (proj2 (app_generate_playlist_raises silent_world
                         "Relaxing music for studying" "alice" []))
           "data/music_data" {| index_docs := [] |}
           {| response := "Relaxing music for studying" |} eq_refl eq_refl).
Defined.

(** ** The index of main2.py *)

(** X20: [load_or_create_index] of [main2.py] never loads a stored index: when
    the index directory exists it raises the [NameError] of [load_index]
    right after the look at the directory, and every index it returns was
    built afresh from a non-empty list of loaded documents, the directory
    being absent. *)
Theorem load_or_create_index_never_loads (w : World) (data_path index_path : string)
  (h : list Event) :
  let m := main2.load_or_create_index w data_path index_path in
  (respond w _ (path_exists index_path) h = inr true ->
   outcome m h
   = inl {| exn_class := NameError; exn_msg := "name 'StorageContext' is not defined" |}
   /\ events m h = [Ev (path_exists index_path) (inr true)])
  /\ (forall ix,
        outcome m h = inr ix ->
        exists doc docs,
          events m h
          = [Ev (path_exists index_path) (inr false);
             Ev (load_data data_path) (inr (doc :: docs));
             Ev (from_documents (doc :: docs)) (inr ix)]).
Proof.
  cbv zeta.
  assert (R : main2.load_or_create_index w data_path index_path h
              = match respond w _ (path_exists index_path) h with
                | inl e => (inl e, h ++ [Ev (path_exists index_path) (inl e)])
                | inr true =>
                    (inl {| exn_class := NameError;
                            exn_msg := "name 'StorageContext' is not defined" |},
                     h ++ [Ev (path_exists index_path) (inr true)])
                | inr false =>
                    main2.create_index w data_path
                      (h ++ [Ev (path_exists index_path) (inr false)])
                end).
  { unfold main2.load_or_create_index.
    change (main2.load_global "os") with (@ret unit tt).
    unfold bind at 1. unfold ret at 1. unfold bind at 1. rewrite call_eq.
    destruct (respond w bool (path_exists index_path) h) as [e|[|]]; reflexivity. }
  split.
  - intros A. rewrite A in R. exact (events_app _ _ _ _ R).
  - intros ix O.
    assert (X : exists o evs,
              main2.load_or_create_index w data_path index_path h = (o, h ++ evs)
              /\ (o = inr ix ->
                  exists doc docs,
                    evs = [Ev (path_exists index_path) (inr false);
                           Ev (load_data data_path) (inr (doc :: docs));
                           Ev (from_documents (doc :: docs)) (inr ix)])).
    { rewrite R.
      destruct (respond w bool (path_exists index_path) h) as [e|[|]].
      - do 2 eexists. split; [reflexivity|discriminate].
      - do 2 eexists. split; [reflexivity|discriminate].
      - unfold main2.create_index.
        change (main2.load_global "SimpleDirectoryReader") with (@ret unit tt).
        change (main2.load_global "ValueError") with (@ret unit tt).
        change (main2.load_global "VectorStoreIndex") with (@ret unit tt).
        unfold bind at 1. unfold ret at 1. unfold bind at 1. rewrite call_eq.
        destruct (respond w (list Document) (load_data data_path) _) as [e|[|d ds]].
        + do 2 eexists. split; [rewrite <- app_assoc; reflexivity|discriminate].
        + do 2 eexists. split; [rewrite <- app_assoc; reflexivity|discriminate].
        + unfold bind at 1. unfold ret at 1. rewrite call_eq.
          destruct (respond w VectorStoreIndex (from_documents (d :: ds)) _) as [e|ix'].
          * do 2 eexists. split; [rewrite <- !app_assoc; reflexivity|discriminate].
          * do 2 eexists. split; [rewrite <- !app_assoc; reflexivity|].
            intros [= ->]. now exists d, ds. }
    destruct X as (o & evs & E & P).
    destruct (events_app _ _ _ _ E) as [Eo ->]. apply P. congruence.
Qed.

Lemma load_or_create_index_never_loads_witness :
  outcome (main2.load_or_create_index (with_index_dir small_world true)
             "./your_music_data" "index") []
  = inl {| exn_class := NameError; exn_msg := "name 'StorageContext' is not defined" |}
  /\ exists doc docs,
       events (main2.load_or_create_index small_world "./your_music_data" "index") []
       = [Ev (path_exists "index") (inr false);
          Ev (load_data "./your_music_data") (inr (doc :: docs));
          Ev (from_documents (doc :: docs))
            (inr {| index_docs := [{| doc_text := "notes" |}] |})].
Proof.
  split.
  - exact (proj1 (proj1 (load_or_create_index_never_loads
                           (with_index_dir small_world true) "./your_music_data"
                           "index" []) eq_refl)).
  - exact (proj2 (load_or_create_index_never_loads small_world "./your_music_data"
                    "index" []) _ eq_refl).
Defined.

(** ** Credentials *)

(** X21: [recommend_similar_songs] browses with the application's credentials
    only: each of its catalog calls goes through the module-level client,
    which carries client credentials and authenticates no user, and none of
    its calls creates a playlist or adds to one. *)
Theorem recommend_similar_songs_app_only (w : World) (song_title : string)
  (num_recommendations : Z) (h : list Event) :
  let evs := events (app.recommend_similar_songs w song_title num_recommendations) h in
  Forall (fun e => event_client e = None \/ event_client e = Some (app.spotify w)) evs
  /\ filter is_mutation evs = []
  /\ app_only (app.spotify w) = true
  /\ user_delegated "playlist-modify-private" (app.spotify w) = false.
Proof.
  cbv zeta.
  assert (X : exists o evs,
            app.recommend_similar_songs w song_title num_recommendations h
            = (o, h ++ evs)
            /\ Forall (fun e => event_client e = None
                                \/ event_client e = Some (app.spotify w)) evs
            /\ filter is_mutation evs = []).
  { rewrite (recommend_similar_songs_run w song_title num_recommendations h).
    cbv zeta.
    destruct (respond w SearchResults _ h) as [e|res].
    { do 2 eexists. split; [rewrite <- app_assoc; reflexivity|].
      split; [|reflexivity]. repeat constructor; now right. }
    destruct (items res) as [|track rest].
    { do 2 eexists. split; [reflexivity|]. split; [|reflexivity].
      repeat constructor; now right. }
    destruct (respond w Recommendations _ _) as [e|recs].
    { do 2 eexists. split; [rewrite <- app_assoc; reflexivity|].
      split; [|reflexivity].
      constructor; [now right|]. constructor; [now right|].
      constructor; [now left|constructor]. }
    destruct (fst (comprehension format_track (rec_tracks recs) [])).
    - do 2 eexists. split; [rewrite <- app_assoc; reflexivity|].
      split; [|reflexivity].
      constructor; [now right|]. constructor; [now right|].
      constructor; [now left|constructor].
    - do 2 eexists. split; [reflexivity|]. split; [|reflexivity].
      constructor; [now right|]. constructor; [now right|constructor]. }
  destruct X as (o & evs & E & F & M).
  destruct (events_app _ _ _ _ E) as [_ ->]. repeat split; assumption.
Qed.

(** X22: What a missing variable does depends on who reads it.  Without
    SERPERDEV_API_KEY, [fetch_playlist_data] still sends its request, with
    the header "Bearer None".  Without one of the three Spotify variables,
    [create_spotify_playlist] makes no call at all: the construction of its
    client, lines 28-33, raises [SpotifyOauthError]. *)
Theorem missing_credentials (w : World) (h : list Event) :
  (forall query,
     environ w "SERPERDEV_API_KEY" = None ->
     exists a rest,
       events (app.fetch_playlist_data w query) h
       = Ev (requests_get app.serper_url [("q", query)]
               [("Authorization", "Bearer None"); ("Content-Type", "application/json")]
               (Some 10)) a :: rest)
  /\ (forall user_id playlist_name song_list,
        credentials_set w = false ->
        exists e,
          outcome (app3.create_spotify_playlist_entry w user_id playlist_name
                     song_list) h = inl e
          /\ exn_class e = SpotifyOauthError
          /\ events (app3.create_spotify_playlist_entry w user_id playlist_name
                       song_list) h = []).
Proof.
  split.
  - intros query K.
    pose proof (fetch_playlist_data_run w query h) as R. cbv zeta in R.
    assert (C : app.search_request w query
                = requests_get app.serper_url [("q", query)]
                    [("Authorization", "Bearer None");
                     ("Content-Type", "application/json")] (Some 10)).
    { unfold app.search_request, app.request_headers, app.serperdev_api_key, getenv.
      now rewrite K. }
    rewrite <- C. set (c := app.search_request w query) in *.
    assert (X : exists o rest,
              app.fetch_playlist_data w query h
              = (o, h ++ Ev c (respond w _ c h) :: rest)).
    { rewrite R. destruct (respond w Response c h) as [e|r].
      - destruct (is_RequestException e); do 2 eexists;
          try rewrite <- app_assoc; reflexivity.
      - destruct ((400 <=? status_code r) && (status_code r <? 600)).
        + do 2 eexists. rewrite <- app_assoc. reflexivity.
        + destruct (json r) as [e|d]; [destruct (is_RequestException e)|];
            do 2 eexists; try rewrite <- app_assoc; reflexivity. }
    destruct X as (o & rest & E). exists (respond w _ c h), rest.
    apply (events_app _ _ _ _ E).
  - intros user_id playlist_name song_list K.
    pose proof (create_spotify_playlist_entry_run w user_id playlist_name song_list h)
      as R.
    rewrite K in R. destruct R as (e & R & C). exists e.
    rewrite (events_nil _ _ _ R). unfold outcome. rewrite R. repeat split. exact C.
Qed.

Lemma missing_credentials_witness :
  (exists a rest,
     events (app.fetch_playlist_data (with_environ small_world spotify_env)
               "lofi beats") []
     = Ev (requests_get app.serper_url [("q", "lofi beats")]
             [("Authorization", "Bearer None"); ("Content-Type", "application/json")]
             (Some 10)) a :: rest)
  /\ (exists e,
        outcome (app3.create_spotify_playlist_entry small_world "alice" "Focus"
                   three_songs) [] = inl e
        /\ exn_class e = SpotifyOauthError).
Proof.
  split.
  - exact (proj1 (missing_credentials (with_environ small_world spotify_env) [])
             "lofi beats" eq_refl).
  - destruct (proj2 (missing_credentials small_world []) "alice" "Focus" three_songs
                eq_refl) as (e & O & C & _).
    exists e. split; [exact O|exact C].
Defined.
